(** * Dashboard de análisis económico (FMI): fetch, cache and panels

    A shallow embedding of [app.py]: the cached fetch function
    [obtener_datos_fmi], the chart helper [crear_grafico_comparativo] and the
    panel blocks of the script.  Python code that raises, performs I/O and
    reads the clock is written in a small monad that threads the process
    state, collects the events the code emits and carries the exception. *)

From Stdlib Require Import ZArith List Bool Ascii String Floats Uint63.
From stdpp Require Import gmap strings list fin_maps pretty sorting.
Import ListNotations.

Local Open Scope string_scope.
Local Open Scope list_scope.
Local Open Scope Z_scope.

(** ** Values *)

(** What [response.json()] returns. Numbers are kept as floats: pandas stores
    an integer of the response either as it is or as the equal float,
    depending on the rest of the column. An object is the Python dict in
    insertion order; its keys are distinct. *)
#[warnings="-register-all"]
Inductive json :=
| JNull
| JBool (b : bool)
| JNum (f : float)
| JStr (s : string)
| JArr (l : list json)
| JObj (kv : list (string * json)).

(** The exceptions the script can meet; all derive from [Exception]. *)
Inductive exn :=
| ConnectionError
| HTTPError (status : Z)
| JSONDecodeError
| KeyError (k : string)
| TypeError
| AttributeError
| ValueError
| IndexError.

(** A normalised series: the rows ([Año], [Valor]) of the data frame. *)
Definition DataFrame : Type := list (Z * float).

(** A row after [df["País"] = ...]. *)
Record fila := { Año : Z; Valor : float; País : string }.

(** The melted row of the trade-balance frame. *)
Record barra := { b_País : string; Tipo : string; b_Valor : float }.

Inductive figure :=
| px_line (df : list fila) (title : string) (yaxis_title : string)
| px_bar (df : list fila) (title : string) (yaxis_title : string)
| px_bar_tipo (df : list barra) (title : string).

(** A call into Streamlit that puts an element on the page.
    [st_error e] is [st.error(f"Error al obtener datos: {str(e)}")]. *)
Inductive st_call :=
| st_error (e : exn)
| st_warning (mensaje : string)
| st_header (s : string)
| st_plotly_chart (fig : figure)
| st_dataframe (tabla : list (Z * string * float)).

(** What the script does to the outside, in order. *)
Inductive event :=
| requests_get (url : string)
| time_sleep (ms : Z)
| st (c : st_call).

(** ** Process state *)

(** The arguments of [obtener_datos_fmi], the key of its cache. *)
Definition key : Type := string * string * Z * Z.

(** A cache entry of [st.cache_data]: the value, the moment it was stored and
    the [st.*] calls made while computing it, replayed on a hit. *)
Record entry := { value : DataFrame; stored : Z; messages : list st_call }.

(** The clock is in milliseconds; [nreq] counts the requests sent so far. *)
Record state := { clock : Z; nreq : nat; cache : gmap key entry }.

(** ** The monad *)

Inductive result (A : Type) :=
| Ok (a : A)
| Raise (e : exn).
Arguments Ok {A} a.
Arguments Raise {A} e.

Record outcome (A : Type) := Out { res : result A; evs : list event; fin : state }.
Arguments Out {A} res evs fin.
Arguments res {A} o.
Arguments evs {A} o.
Arguments fin {A} o.

Definition M (A : Type) : Type := state -> outcome A.

Definition ret {A} (a : A) : M A := fun s => Out (Ok a) [] s.

Definition bind {A B} (m : M A) (k : A -> M B) : M B :=
  fun s =>
    let o := m s in
    match res o with
    | Ok a => let o' := k a (fin o) in Out (res o') (evs o ++ evs o') (fin o')
    | Raise e => Out (Raise e) (evs o) (fin o)
    end.

(** [try: m except Exception as e: h e] *)
Definition try_except {A} (m : M A) (h : exn -> M A) : M A :=
  fun s =>
    let o := m s in
    match res o with
    | Ok a => o
    | Raise e => let o' := h e (fin o) in Out (res o') (evs o ++ evs o') (fin o')
    end.

Definition emit (c : st_call) : M unit := fun s => Out (Ok tt) [st c] s.

Definition lift {A} (r : result A) : M A := fun s => Out r [] s.

(** Sequencing of steps that only compute or raise. *)
Definition and_then {A B} (r : result A) (k : A -> result B) : result B :=
  match r with
  | Ok a => k a
  | Raise e => Raise e
  end.

Declare Scope py_scope.
Delimit Scope py_scope with py.
Notation "x <- m ;; k" := (bind m (fun x => k))
  (at level 100, m at next level, right associativity) : py_scope.
Notation "m ;;; k" := (bind m (fun _ => k))
  (at level 100, right associativity) : py_scope.
Notation "'let?' x := r 'in' k" := (and_then r (fun x => k))
  (at level 10, x name, r at level 100, k at level 200) : py_scope.
Local Open Scope py_scope.

(** ** The libraries *)

(** The response object of [requests]: the status line and the body as
    [response.json()] reads it ([None] when the body is not JSON). *)
Record Response := { status_code : Z; body : option json }.

(** One exchange with the upstream: how long it took and what came back
    ([None] when [requests.get] raises: no route, DNS, reset). *)
Record reply := { took : Z; got : option Response }.

(** The upstream service: the reply to the [n]-th request of the process. *)
Class Upstream := upstream : nat -> string -> reply.

(** The conversions of pandas that the script relies on.
    - [astype_int]: one label under [Index.astype(int)]; [None] when the
      label is no integer literal (or leaves the 64-bit range).
    - [coerce]: one cell that is neither [None] nor a number under
      [pd.to_numeric(errors="coerce")]: the number a numeric string spells,
      NaN for a cell that does not convert.
    - [from_nested]: [DataFrame.from_dict(orient="index", columns=["Valor"])]
      on a mapping in which some value is itself a list or a mapping. *)
Class Pandas := {
  astype_int : string -> option Z;
  coerce : json -> float;
  from_nested : list (string * json) -> result (list (string * json))
}.

Definition nan : float := PrimFloat.nan.

(** ** [obtener_datos_fmi] *)

Section Fetch.
Context `{Upstream} `{Pandas}.

Definition tick (d : Z) (s : state) : state :=
  {| clock := clock s + d; nreq := nreq s; cache := cache s |}.

(** [requests.get(url)] *)
Definition get (url : string) : M Response :=
  fun s =>
    let r := upstream (nreq s) url in
    let s' := {| clock := clock s + took r; nreq := S (nreq s); cache := cache s |} in
    match got r with
    | Some response => Out (Ok response) [requests_get url] s'
    | None => Out (Raise ConnectionError) [requests_get url] s'
    end.

(** [time.sleep], the argument in milliseconds *)
Definition sleep (ms : Z) : M unit :=
  fun s => Out (Ok tt) [time_sleep ms] (tick ms s).

(** [response.raise_for_status()]: client and server errors raise. *)
Definition raise_for_status (response : Response) : result unit :=
  if (400 <=? status_code response) && (status_code response <? 600)
  then Raise (HTTPError (status_code response))
  else Ok tt.

(** [response.json()] *)
Definition response_json (response : Response) : result json :=
  match body response with
  | Some data => Ok data
  | None => Raise JSONDecodeError
  end.

Fixpoint dict_get (kv : list (string * json)) (k : string) : option json :=
  match kv with
  | [] => None
  | (k', v) :: rest => if String.eqb k k' then Some v else dict_get rest k
  end.

(** [v[k]] with a string [k] *)
Definition getitem (v : json) (k : string) : result json :=
  match v with
  | JObj kv =>
      match dict_get kv k with
      | Some x => Ok x
      | None => Raise (KeyError k)
      end
  | _ => Raise TypeError
  end.

Definition is_container (v : json) : bool :=
  match v with
  | JArr _ | JObj _ => true
  | _ => false
  end.

(** [pd.DataFrame.from_dict(series, orient="index", columns=["Valor"])]: the
    frame as its rows (label, cell of [Valor]). [len(series)] is taken first;
    a non-empty [series] is then asked for its [.values()]. *)
Definition from_dict (series : json) : result (list (string * json)) :=
  match series with
  | JNull | JBool _ | JNum _ => Raise TypeError
  | JStr EmptyString => Raise ValueError
  | JStr _ => Raise AttributeError
  | JArr [] => Ok []
  | JArr _ => Raise AttributeError
  | JObj [] => Ok []
  | JObj kv => if existsb is_container (map snd kv) then from_nested kv else Ok kv
  end.

(** [df.index = df.index.astype(int)] followed by [reset_index] and
    [rename]: the labels become the column [Año]. *)
Fixpoint index_astype_int (df : list (string * json)) : result (list (Z * json)) :=
  match df with
  | [] => Ok []
  | (label, cell) :: rest =>
      match astype_int label with
      | None => Raise ValueError
      | Some año =>
          match index_astype_int rest with
          | Ok rows => Ok ((año, cell) :: rows)
          | Raise e => Raise e
          end
      end
  end.

(** [pd.to_numeric(..., errors="coerce")] on one cell *)
Definition to_numeric (cell : json) : float :=
  match cell with
  | JNull => nan
  | JNum f => f
  | _ => coerce cell
  end.

Definition notna (row : Z * float) : bool := negb (PrimFloat.is_nan (snd row)).

(** [df.dropna()] *)
Definition dropna (df : DataFrame) : DataFrame := List.filter notna df.

Definition url_fmi (pais_iso2 indicador_codigo : string) (start_year end_year : Z) : string :=
  "https://www.imf.org/external/datamapper/api/v1/" +:+ indicador_codigo +:+ "/"
    +:+ pais_iso2 +:+ "?periods=" +:+ pretty start_year +:+ "-" +:+ pretty end_year.

(** [data["values"][indicador_codigo][pais_iso2]] *)
Definition series_at (data : json) (indicador_codigo pais_iso2 : string) : result json :=
  let? values := getitem data "values" in
  let? by_indicador := getitem values indicador_codigo in
  getitem by_indicador pais_iso2.

(** Lines 60 to 68 of the [try] block: from the response to the frame with
    its numeric column, before [dropna]. *)
Definition normalizar (pais_iso2 indicador_codigo : string) (response : Response)
    : result DataFrame :=
  let? _ := raise_for_status response in
  let? data := response_json response in
  let? series := series_at data indicador_codigo pais_iso2 in
  let? df := from_dict series in
  let? df := index_astype_int df in
  Ok (map (fun r => (fst r, to_numeric (snd r))) df).

(** The [try] block of [obtener_datos_fmi]; [time.sleep(0.5)] comes before
    [dropna]. *)
Definition try_block (pais_iso2 indicador_codigo : string) (start_year end_year : Z) : M DataFrame :=
  response <- get (url_fmi pais_iso2 indicador_codigo start_year end_year);;
  df <- lift (normalizar pais_iso2 indicador_codigo response);;
  sleep 500;;;
  ret (dropna df).

(** The function under the decorator: the [try] block and its handler. *)
Definition obtener_datos_fmi_body (k : key) : M DataFrame :=
  let '(pais_iso2, indicador_codigo, start_year, end_year) := k in
  try_except (try_block pais_iso2 indicador_codigo start_year end_year)
    (fun e => emit (st_error e);;; ret []).

Definition recorded (e : event) : option st_call :=
  match e with
  | st c => Some c
  | _ => None
  end.

(** [@st.cache_data(ttl=...)]: a live entry is returned, with its recorded
    [st.*] calls replayed; otherwise the function runs and, when it returns,
    its value is stored under the arguments with the time of storing. An
    entry is live while the clock is before [stored + ttl]. *)
Definition cache_data (ttl : Z) (f : key -> M DataFrame) (k : key) : M DataFrame :=
  fun s =>
    let miss :=
      let o := f k s in
      match res o with
      | Ok v =>
          let e := {| value := v; stored := clock (fin o); messages := omap recorded (evs o) |} in
          Out (Ok v) (evs o)
            {| clock := clock (fin o); nreq := nreq (fin o); cache := <[k := e]> (cache (fin o)) |}
      | Raise _ => o
      end in
    match cache s !! k with
    | Some e => if clock s <? stored e + ttl then Out (Ok (value e)) (map st (messages e)) s else miss
    | None => miss
    end.

Definition ttl : Z := 3600 * 1000.

Definition obtener_datos_fmi (pais_iso2 indicador_codigo : string) (start_year end_year : Z) : M DataFrame :=
  cache_data ttl obtener_datos_fmi_body (pais_iso2, indicador_codigo, start_year, end_year).

End Fetch.

(** ** The catalogue *)

(** The keys of [PAISES]; the multiselect of the sidebar offers exactly
    these, so a selection is a list of them. *)
Inductive pais := USA | MEX | BRA | ESP | ARG | COL | CHL | PER | DEU | FRA | GBR | CHN.

(** [PAISES[pais]["nombre"]] *)
Definition nombre (p : pais) : string :=
  match p with
  | USA => "Estados Unidos" | MEX => "México" | BRA => "Brasil" | ESP => "España"
  | ARG => "Argentina" | COL => "Colombia" | CHL => "Chile" | PER => "Perú"
  | DEU => "Alemania" | FRA => "Francia" | GBR => "Reino Unido" | CHN => "China"
  end.

(** [PAISES[pais]["iso2"]] *)
Definition iso2 (p : pais) : string :=
  match p with
  | USA => "US" | MEX => "MX" | BRA => "BR" | ESP => "ES"
  | ARG => "AR" | COL => "CO" | CHL => "CL" | PER => "PE"
  | DEU => "DE" | FRA => "FR" | GBR => "GB" | CHN => "CN"
  end.

(** ** Charts and panels *)

(** [df.empty], and the truth value of a Python list negated *)
Definition empty {A} (l : list A) : bool :=
  match l with
  | [] => true
  | _ :: _ => false
  end.

(** [df["País"] = nombre] *)
Definition set_País (df : DataFrame) (nombre : string) : list fila :=
  map (fun r => {| Año := fst r; Valor := snd r; País := nombre |}) df.

(** [pd.concat(objs)]: no objects to concatenate is an error. *)
Definition pd_concat {A} (objs : list (list A)) : result (list A) :=
  match objs with
  | [] => Raise ValueError
  | _ :: _ => Ok (concat objs)
  end.

Definition same_cell (a b : fila) : bool :=
  (Año a =? Año b) && String.eqb (País a) (País b).

(** The labels of the rows of the pivoted table: the years of the frame,
    each once, in ascending order. *)
Fixpoint insert_año (año : Z) (l : list Z) : list Z :=
  match l with
  | [] => [año]
  | x :: rest =>
      if año <? x then año :: l
      else if año =? x then l
      else x :: insert_año año rest
  end.

Definition index_of (df : list fila) : list Z := foldr insert_año [] (map Año df).

(** The labels of its columns: the countries of the frame, each once, in
    the order of Python's strings (by code point, which is the order of the
    bytes of the UTF-8 text). *)
Fixpoint insert_país (país : string) (l : list string) : list string :=
  match l with
  | [] => [país]
  | x :: rest =>
      if String.ltb país x then país :: l
      else if String.eqb país x then l
      else x :: insert_país país rest
  end.

Definition columns_of (df : list fila) : list string := foldr insert_país [] (map País df).

(** The cell of a year and a country: the value of the row that has them,
    NaN when there is none. *)
Definition cell_at (df : list fila) (año : Z) (país : string) : float :=
  match List.find (fun r => (Año r =? año) && String.eqb (País r) país) df with
  | Some r => Valor r
  | None => nan
  end.

(** The pivoted table, row after row: a cell for every year and every
    country of the frame. *)
Definition unstack (df : list fila) : list (Z * string * float) :=
  flat_map (fun año => map (fun país => (año, país, cell_at df año país)) (columns_of df))
    (index_of df).

Fixpoint repeated_cell (df : list fila) : bool :=
  match df with
  | [] => false
  | r :: rest => existsb (same_cell r) rest || repeated_cell rest
  end.

(** [df.pivot(index="Año", columns="País", values="Valor")]: two rows for
    one year and country are an error; otherwise the table of years by
    countries, both sorted, with NaN where the frame has no row. *)
Definition pivot (df : list fila) : result (list (Z * string * float)) :=
  if repeated_cell df then Raise ValueError else Ok (unstack df).

Definition crear_grafico_comparativo (df : list fila) (titulo tipo unidad : string)
    (show_table : bool) : M unit :=
  if empty df then emit (st_warning ("No hay datos disponibles para " +:+ titulo))
  else
    let fig :=
      if String.eqb tipo "line"
      then px_line df (titulo +:+ " (" +:+ unidad +:+ ")") unidad
      else px_bar df (titulo +:+ " (" +:+ unidad +:+ ")") unidad in
    emit (st_plotly_chart fig);;;
    if show_table
    then (tabla <- lift (pivot df);; emit (st_dataframe tabla))
    else ret tt.

(** The dict appended to [datos_balanza]. *)
Record balanza := { bal_País : string; Exportaciones : float; Importaciones : float }.

(** [df["Valor"].values[0]] *)
Definition values_0 (df : DataFrame) : result float :=
  match df with
  | [] => Raise IndexError
  | r :: _ => Ok (snd r)
  end.

(** [df_balanza.melt(id_vars="País", var_name="Tipo", value_name="Valor")] *)
Definition melt (datos : list balanza) : list barra :=
  map (fun d => {| b_País := bal_País d; Tipo := "Exportaciones"; b_Valor := Exportaciones d |}) datos
  ++ map (fun d => {| b_País := bal_País d; Tipo := "Importaciones"; b_Valor := Importaciones d |}) datos.

Section Script.
Context `{Upstream} `{Pandas}.

(** The loop of a panel: [datos] is the list built so far. *)
Fixpoint recolectar (codigo : string) (año_inicio año_fin : Z) (paises : list pais)
    (datos : list (list fila)) : M (list (list fila)) :=
  match paises with
  | [] => ret datos
  | pais :: resto =>
      df <- obtener_datos_fmi (iso2 pais) codigo año_inicio año_fin;;
      if negb (empty df)
      then recolectar codigo año_inicio año_fin resto (datos ++ [set_País df (nombre pais)])
      else recolectar codigo año_inicio año_fin resto datos
  end.

(** One of the eleven panels that share the pattern of "Gráfico 1: PIB". *)
Definition panel (header codigo titulo tipo unidad : string)
    (paises_seleccionados : list pais) (año_inicio año_fin : Z) : M unit :=
  emit (st_header header);;;
  datos <- recolectar codigo año_inicio año_fin paises_seleccionados [];;
  if negb (empty datos)
  then (df <- lift (pd_concat datos);; crear_grafico_comparativo df titulo tipo unidad true)
  else ret tt.

(** The loop of "Gráfico 4: Balanza Comercial". *)
Fixpoint recolectar_balanza (año_actual : Z) (paises : list pais)
    (datos : list balanza) : M (list balanza) :=
  match paises with
  | [] => ret datos
  | pais :: resto =>
      df_export <- obtener_datos_fmi (iso2 pais) "TXG_FOB_USD" año_actual año_actual;;
      df_import <- obtener_datos_fmi (iso2 pais) "TMG_CIF_USD" año_actual año_actual;;
      if negb (empty df_export) && negb (empty df_import)
      then
        (exportaciones <- lift (values_0 df_export);;
         importaciones <- lift (values_0 df_import);;
         recolectar_balanza año_actual resto
           (datos ++ [{| bal_País := nombre pais; Exportaciones := exportaciones;
                         Importaciones := importaciones |}]))
      else recolectar_balanza año_actual resto datos
  end.

Definition balanza_comercial (paises_seleccionados : list pais) (año_fin : Z) : M unit :=
  emit (st_header "4. Balanza Comercial (Último Año)");;;
  if negb (empty paises_seleccionados)
  then
    let año_actual := año_fin in
    datos_balanza <- recolectar_balanza año_actual paises_seleccionados [];;
    if negb (empty datos_balanza)
    then emit (st_plotly_chart
                 (px_bar_tipo (melt datos_balanza)
                    ("Balanza Comercial (" +:+ pretty año_actual +:+ ")")))
    else ret tt
  else ret tt.

(** The eleven panels of the common pattern, under the names of their lists
    (the icon that opens each header of the page is left out of its text). *)
Definition datos_pib := panel "1. Producto Interno Bruto (PIB)" "NGDP_R" "Evolución del PIB" "bar" "USD".
Definition datos_pib_per_capita := panel "2. PIB per cápita" "NGDPDPC" "PIB per cápita" "bar" "USD".
Definition datos_inflacion := panel "3. Inflación Anual" "PCPI" "Tasa de Inflación" "line" "%".
Definition datos_cuenta := panel "5. Cuenta Corriente (% PIB)" "BCA" "Cuenta Corriente" "line" "% PIB".
Definition datos_reservas := panel "6. Reservas Internacionales" "RAXG" "Reservas Internacionales" "bar" "USD".
Definition datos_tasas := panel "7. Tasas de Interés de Política Monetaria" "FPOLM_PA" "Tasas de Interés" "line" "%".
Definition datos_deuda := panel "8. Deuda Pública (% PIB)" "GGXWDG" "Deuda Pública" "bar" "% PIB".
Definition datos_deficit := panel "9. Déficit Fiscal (% PIB)" "GGXONLB" "Déficit Fiscal" "bar" "% PIB".
Definition datos_gasto := panel "10. Gasto Público (% PIB)" "GGX" "Gasto Público" "bar" "% PIB".
Definition datos_desempleo := panel "11. Tasa de Desempleo (%)" "LUR" "Tasa de Desempleo" "bar" "%".
Definition datos_ied := panel "12. Inversión Extranjera Directa (USD)" "FDI" "Inversión Extranjera Directa" "bar" "USD".

End Script.

(** ** Plain decimal conversions and scripted upstreams *)

(** The conversions on the plain decimal literals the scenarios use: an
    optional sign, digits and, for a number, an optional fraction. The float
    of a literal is the quotient of its digits by the power of ten, the
    nearest float for literals of up to fifteen digits. Mappings that hold
    lists or mappings do not occur in the scenarios. *)
Module Plain.

Definition digit (c : ascii) : option Z :=
  let n := Z.of_N (N_of_ascii c) in
  if (48 <=? n) && (n <=? 57) then Some (n - 48) else None.

(** The digits of [s] read after [acc]; [None] on any other character. *)
Fixpoint digits (s : string) (acc : Z) : option Z :=
  match s with
  | EmptyString => Some acc
  | String c rest =>
      match digit c with
      | Some d => digits rest (10 * acc + d)
      | None => None
      end
  end.

Definition unsigned (s : string) : option Z :=
  match s with
  | EmptyString => None
  | _ => digits s 0
  end.

Definition int (s : string) : option Z :=
  match s with
  | String "-" rest => Z.opp <$> unsigned rest
  | String "+" rest => unsigned rest
  | _ => unsigned s
  end.

(** [s] cut at its first point. *)
Fixpoint cut (s : string) : string * option string :=
  match s with
  | EmptyString => (EmptyString, None)
  | String "." rest => (EmptyString, Some rest)
  | String c rest => let '(a, b) := cut rest in (String c a, b)
  end.

Definition of_Z (z : Z) : float := PrimFloat.of_uint63 (Uint63.of_Z z).

Definition unsigned_float (s : string) : option float :=
  match cut s with
  | (a, None) => of_Z <$> unsigned a
  | (a, Some b) =>
      match unsigned a, unsigned b with
      | Some _, Some _ =>
          (fun m => PrimFloat.div (of_Z m) (of_Z (10 ^ Z.of_nat (String.length b))))
            <$> digits (a +:+ b) 0
      | _, _ => None
      end
  end.

Definition number (s : string) : float :=
  match s with
  | String "-" rest => default nan (PrimFloat.opp <$> unsigned_float rest)
  | String "+" rest => default nan (unsigned_float rest)
  | _ => default nan (unsigned_float s)
  end.

#[export] Instance pandas : Pandas := {|
  astype_int := int;
  coerce cell :=
    match cell with
    | JStr s => number s
    | JBool true => PrimFloat.one
    | JBool false => PrimFloat.zero
    | _ => nan
    end;
  from_nested _ := Raise ValueError
|}.

End Plain.

(** An upstream that answers every request at once with [response]. *)
Definition always (response : Response) : Upstream :=
  fun _ _ => {| took := 0; got := Some response |}.

(** An upstream that answers by the URL asked. *)
Definition by_url (table : list (string * Response)) : Upstream :=
  fun _ url =>
    {| took := 0;
       got := snd <$> List.find (fun e => String.eqb (fst e) url) table |}.

(** A fresh process: the clock at zero, nothing requested, nothing cached. *)
Definition start : state := {| clock := 0; nreq := 0%nat; cache := ∅ |}.

Definition ok_json (data : json) : Response := {| status_code := 200; body := Some data |}.

Definition mocked_NGDP_R_US : json :=
  JObj [("values", JObj [("NGDP_R", JObj [("US",
    JObj [("2020", JStr "100"); ("2021", JStr "105.5"); ("2022", JNull)])])])].

Definition mocked_with_text : json :=
  JObj [("values", JObj [("NGDP_R", JObj [("US",
    JObj [("2020", JStr "100"); ("2021", JStr "n/a"); ("2022", JNum 3)])])])].

Definition mocked_bad_year : json :=
  JObj [("values", JObj [("NGDP_R", JObj [("US",
    JObj [("2020", JStr "100"); ("2021 (est.)", JStr "105.5"); ("2022", JNum 3)])])])].

(** An upstream for the scenario of two countries: Mexico's request meets a
    server error, the one of the United States is answered. *)
Definition mex_fails_usa_succeeds : Upstream :=
  by_url [ (url_fmi "MX" "NGDP_R" 2020 2022, {| status_code := 500; body := None |});
           (url_fmi "US" "NGDP_R" 2020 2022, ok_json mocked_NGDP_R_US) ].

Definition all_null : json :=
  JObj [("values", JObj [("NGDP_R", JObj [("MX", JObj [("2020", JNull); ("2021", JNull)])])])].

(** An upstream for the scenario of one country and one year: exports of
    50 and imports of 70 for Mexico in 2023. *)
Definition exports_50_imports_70 : Upstream :=
  by_url
    [ (url_fmi "MX" "TXG_FOB_USD" 2023 2023,
       ok_json (JObj [("values", JObj [("TXG_FOB_USD", JObj [("MX", JObj [("2023", JNum 50)])])])]));
      (url_fmi "MX" "TMG_CIF_USD" 2023 2023,
       ok_json (JObj [("values", JObj [("TMG_CIF_USD", JObj [("MX", JObj [("2023", JNum 70)])])])])) ].

(** An upstream that is down for the first request and answers from the
    second on. *)
Definition down_then_up (response : Response) : Upstream :=
  fun n _ =>
    match n with
    | O => {| took := 0; got := None |}
    | S _ => {| took := 0; got := Some response |}
    end.

Definition empty_series_MX : json :=
  JObj [("values", JObj [("NGDP_R", JObj [("MX", JObj [])])])].

(** ** Vocabulary of the statements *)

Definition requests_of (l : list event) : list string :=
  omap (fun e => match e with requests_get url => Some url | _ => None end) l.

Definition sleeps_of (l : list event) : list Z :=
  omap (fun e => match e with time_sleep ms => Some ms | _ => None end) l.

Definition notices_of (l : list event) : list st_call := omap recorded l.

(** The entry of [k], if any, is still within its time to live. *)
Definition live (s : state) (k : key) : bool :=
  match cache s !! k with
  | Some e => clock s <? stored e + ttl
  | None => false
  end.

(** The state once the reply [r] to a request has arrived. *)
Definition arrived (r : reply) (s : state) : state :=
  {| clock := clock s + took r; nreq := S (nreq s); cache := cache s |}.

(** The state once [e] is stored under [k]. *)
Definition stored_in (k : key) (e : entry) (s : state) : state :=
  {| clock := clock s; nreq := nreq s; cache := <[k := e]> (cache s) |}.

(** What lines 59 to 68 come to on the reply [r]: the frame before
    [dropna], or the exception that sends control to the handler. *)
Definition attempt `{Pandas} (pais_iso2 indicador_codigo : string) (r : reply) : result DataFrame :=
  match got r with
  | None => Raise ConnectionError
  | Some response => normalizar pais_iso2 indicador_codigo response
  end.

(** The failures of the taxonomy, read off the reply: no response at all, a
    client or server error status, a body that is not JSON, or JSON without
    the path [values[indicador][pais]]. *)
Definition fetch_failure (pais_iso2 indicador_codigo : string) (r : reply) : Prop :=
  got r = None
  \/ exists response, got r = Some response
       /\ (400 <= status_code response < 600
           \/ body response = None
           \/ exists data e, body response = Some data
                /\ series_at data indicador_codigo pais_iso2 = Raise e).

(** The response the service documents: a status that is no client or
    server error and a JSON body whose series is the mapping [kv] from year
    labels to scalars (numbers, strings, booleans or null). *)
Definition expected (pais_iso2 indicador_codigo : string) (r : reply) (kv : list (string * json)) : Prop :=
  exists response data,
    got r = Some response
    /\ ~ 400 <= status_code response < 600
    /\ body response = Some data
    /\ series_at data indicador_codigo pais_iso2 = Ok (JObj kv)
    /\ existsb is_container (map snd kv) = false.

(** The years of the upstream's rows whose value is a number after
    coercion, in the order of the response. *)
Definition kept_years `{Pandas} (rows : list (Z * json)) : list Z :=
  map fst (List.filter (fun r => negb (PrimFloat.is_nan (to_numeric (snd r)))) rows).

(** What happens between two calls of interest: time passes and the fetch
    is called with other arguments, any number of times. *)
Fixpoint other_calls `{Upstream} `{Pandas} (l : list (Z * key)) : M unit :=
  match l with
  | [] => ret tt
  | (d, (p, i, a, b)) :: rest =>
      (fun s => Out (Ok tt) [] (tick d s));;;
      obtener_datos_fmi p i a b;;;
      other_calls rest
  end.

(** ** The panels in the words of the specification *)

(** From the specification: the fetch is invoked once per selected country,
    one after the other. *)
Fixpoint fetch_per_country `{Upstream} `{Pandas} (codigo : string) (año_inicio año_fin : Z)
    (paises : list pais) : M (list (pais * DataFrame)) :=
  match paises with
  | [] => ret []
  | p :: resto =>
      df <- obtener_datos_fmi (iso2 p) codigo año_inicio año_fin;;
      dfs <- fetch_per_country codigo año_inicio año_fin resto;;
      ret ((p, df) :: dfs)
  end.

(** From the specification: the countries whose series is empty are skipped
    and the rows of each remaining series are tagged with the display name of
    its country. *)
Definition tagged (dfs : list (pais * DataFrame)) : list (list fila) :=
  map (fun x => set_País (snd x) (nombre (fst x)))
    (List.filter (fun x => negb (empty (snd x))) dfs).

(** From the specification: the aggregated panel is the concatenation. *)
Definition aggregated_panel (dfs : list (pais * DataFrame)) : list fila :=
  concat (tagged dfs).

(** From the specification: exports and imports are fetched for each
    country, each for the single year given. *)
Fixpoint fetch_trade_per_country `{Upstream} `{Pandas} (año : Z) (paises : list pais)
    : M (list (pais * DataFrame * DataFrame)) :=
  match paises with
  | [] => ret []
  | p :: resto =>
      df_export <- obtener_datos_fmi (iso2 p) "TXG_FOB_USD" año año;;
      df_import <- obtener_datos_fmi (iso2 p) "TMG_CIF_USD" año año;;
      dfs <- fetch_trade_per_country año resto;;
      ret ((p, df_export, df_import) :: dfs)
  end.

(** From the specification: a country enters the comparison with its two
    values when both of its series have data. *)
Definition trade_rows (dfs : list (pais * DataFrame * DataFrame)) : list balanza :=
  omap (fun x =>
          match snd (fst x), snd x with
          | e :: _, i :: _ =>
              Some {| bal_País := nombre (fst (fst x)); Exportaciones := snd e;
                      Importaciones := snd i |}
          | _, _ => None
          end) dfs.

(** ** The page *)

(** Section 4 of the script, lines 129 to 283: the twelve blocks one after
    the other. An exception that leaves a block ends the run. *)
Definition visualizacion `{Upstream} `{Pandas} (paises_seleccionados : list pais)
    (año_inicio año_fin : Z) : M unit :=
  datos_pib paises_seleccionados año_inicio año_fin;;;
  datos_pib_per_capita paises_seleccionados año_inicio año_fin;;;
  datos_inflacion paises_seleccionados año_inicio año_fin;;;
  balanza_comercial paises_seleccionados año_fin;;;
  datos_cuenta paises_seleccionados año_inicio año_fin;;;
  datos_reservas paises_seleccionados año_inicio año_fin;;;
  datos_tasas paises_seleccionados año_inicio año_fin;;;
  datos_deuda paises_seleccionados año_inicio año_fin;;;
  datos_deficit paises_seleccionados año_inicio año_fin;;;
  datos_gasto paises_seleccionados año_inicio año_fin;;;
  datos_desempleo paises_seleccionados año_inicio año_fin;;;
  datos_ied paises_seleccionados año_inicio año_fin.

(** ** Further vocabulary *)

(** The cell of the pivoted table that a row fills. *)
Definition cell_of (f : fila) : Z * string := (Año f, País f).

(** Countries in the order of the columns. *)
Definition país_lt (a b : string) : Prop := String.ltb a b = true.

(** The figure [crear_grafico_comparativo] draws. *)
Definition figure_of (df : list fila) (titulo tipo unidad : string) : figure :=
  if String.eqb tipo "line"
  then px_line df (titulo +:+ " (" +:+ unidad +:+ ")") unidad
  else px_bar df (titulo +:+ " (" +:+ unidad +:+ ")") unidad.

(** Every cached frame satisfies [Q]. *)
Definition cached_all (Q : DataFrame -> Prop) (s : state) : Prop :=
  forall k e, cache s !! k = Some e -> Q (value e).

(** An entry as the fetch function stores it: the frame has no NaN, and the
    entry carries either no notice or one error notice with the empty
    frame. *)
Definition tidy_entry (e : entry) : Prop :=
  Forall (fun r => PrimFloat.is_nan (snd r) = false) (value e)
  /\ (messages e = [] \/ exists x, messages e = [st_error x] /\ value e = []).

Definition tidy (s : state) : Prop :=
  forall k e, cache s !! k = Some e -> tidy_entry e.

(** No reply of the upstream repeats a year within a series. *)
Definition unique_years `{Upstream} `{Pandas} : Prop :=
  forall n url p i df, attempt p i (upstream n url) = Ok df -> NoDup (map fst df).

(** Replies take time, never give it back. *)
Definition replies_take_time `{Upstream} : Prop :=
  forall n url, 0 <= took (upstream n url).

(** At the time [T] every entry of [s] is within its time to live, and so
    is anything stored from the clock of [s] on. *)
Definition fresh_until (T : Z) (s : state) : Prop :=
  T < clock s + ttl
  /\ forall k e, cache s !! k = Some e -> T < stored e + ttl.

(** A second run of [m] from [s'] only replays the first run from [s]: the
    same result, the page elements of the first run and nothing else, and
    the state left as it is. *)
Definition replays {A} (m : M A) (s s' : state) : Prop :=
  m s' = Out (res (m s)) (map st (notices_of (evs (m s)))) s'.

(** What a run of [m] within the time to live keeps: the clock does not go
    back; and when everything cached is fresh until [T] and the run ends by
    [T], the cache only grows, stays fresh until [T], and a run at time [T]
    from a state with that cache replays. *)
Definition steady {A} (m : M A) : Prop :=
  (forall s, clock s <= clock (fin (m s)))
  /\ forall T s,
       fresh_until T s -> clock (fin (m s)) <= T ->
       fresh_until T (fin (m s))
       /\ cache s ⊆ cache (fin (m s))
       /\ forall s', clock s' = T -> cache (fin (m s)) ⊆ cache s' -> replays m s s'.

(** [m] sends at most [n] requests and sleeps no more often than it
    sends. *)
Definition sends_at_most {A} (n : nat) (m : M A) : Prop :=
  forall s,
    (length (sleeps_of (evs (m s))) <= length (requests_of (evs (m s))))%nat
    /\ (length (requests_of (evs (m s))) <= n)%nat.

(** ** The fetch function, step by step *)

Lemma bind_ok {A B} (m : M A) (k : A -> M B) s a :
  res (m s) = Ok a ->
  bind m k s
  = Out (res (k a (fin (m s)))) (evs (m s) ++ evs (k a (fin (m s)))) (fin (k a (fin (m s)))).
Proof. intros Hr. unfold bind. by rewrite Hr. Qed.

Section Fetch_facts.
Context `{Upstream} `{Pandas}.

Lemma body_run p i a b s :
  obtener_datos_fmi_body (p, i, a, b) s
  = let r := upstream (nreq s) (url_fmi p i a b) in
    match attempt p i r with
    | Ok df =>
        Out (Ok (dropna df)) [requests_get (url_fmi p i a b); time_sleep 500]
          (tick 500 (arrived r s))
    | Raise e =>
        Out (Ok []) [requests_get (url_fmi p i a b); st (st_error e)] (arrived r s)
    end.
Proof.
  unfold obtener_datos_fmi_body, try_except, try_block, bind, get, lift, attempt.
  cbn. destruct (got (upstream (nreq s) (url_fmi p i a b))) as [response|]; cbn.
  - destruct (normalizar p i response); reflexivity.
  - reflexivity.
Qed.

Lemma body_total k s : exists df, res (obtener_datos_fmi_body k s) = Ok df.
Proof.
  destruct k as [[[p i] a] b]. rewrite body_run. cbn.
  destruct (attempt p i _); cbn; eauto.
Qed.

(** A live entry answers the call. *)
Lemma cache_hit (f : key -> M DataFrame) k s e :
  cache s !! k = Some e -> clock s < stored e + ttl ->
  cache_data ttl f k s = Out (Ok (value e)) (map st (messages e)) s.
Proof.
  intros Hk Ht. unfold cache_data. rewrite Hk.
  destruct (Z.ltb_spec (clock s) (stored e + ttl)); [reflexivity | lia].
Qed.

(** Without a live entry the function runs and its value is stored. *)
Lemma cache_miss (f : key -> M DataFrame) k s v :
  live s k = false -> res (f k s) = Ok v ->
  cache_data ttl f k s
  = Out (Ok v) (evs (f k s))
      (stored_in k {| value := v; stored := clock (fin (f k s));
                      messages := notices_of (evs (f k s)) |} (fin (f k s))).
Proof.
  intros Hl Hv. unfold cache_data, live in *.
  destruct (cache s !! k) as [e|]; [rewrite Hl|]; rewrite Hv; reflexivity.
Qed.

Lemma live_spec s k :
  live s k = true <-> exists e, cache s !! k = Some e /\ clock s < stored e + ttl.
Proof.
  unfold live. destruct (cache s !! k) as [e|].
  - rewrite Z.ltb_lt. split; [eauto | intros (e' & [= <-] & ?); auto].
  - split; [discriminate | intros (e' & [=] & _)].
Qed.

Lemma not_live_spec s k e :
  cache s !! k = Some e -> stored e + ttl <= clock s -> live s k = false.
Proof.
  intros Hk Ht. unfold live. rewrite Hk. apply Z.ltb_ge. lia.
Qed.

Lemma requests_of_st l : requests_of (map st l) = [].
Proof. induction l; auto. Qed.

Lemma sleeps_of_st l : sleeps_of (map st l) = [].
Proof. induction l; auto. Qed.

(** The call on a live entry, in full. *)
Lemma call_hit p i a b s e :
  cache s !! (p, i, a, b) = Some e -> clock s < stored e + ttl ->
  obtener_datos_fmi p i a b s = Out (Ok (value e)) (map st (messages e)) s.
Proof. apply cache_hit. Qed.

(** The call without a live entry, in full. *)
Lemma call_miss p i a b s :
  live s (p, i, a, b) = false ->
  obtener_datos_fmi p i a b s
  = let r := upstream (nreq s) (url_fmi p i a b) in
    match attempt p i r with
    | Ok df =>
        Out (Ok (dropna df)) [requests_get (url_fmi p i a b); time_sleep 500]
          (stored_in (p, i, a, b)
             {| value := dropna df; stored := clock s + took r + 500; messages := [] |}
             (tick 500 (arrived r s)))
    | Raise e =>
        Out (Ok []) [requests_get (url_fmi p i a b); st (st_error e)]
          (stored_in (p, i, a, b)
             {| value := []; stored := clock s + took r; messages := [st_error e] |}
             (arrived r s))
    end.
Proof.
  intros Hl. unfold obtener_datos_fmi.
  destruct (body_total (p, i, a, b) s) as [v Hv].
  rewrite (cache_miss _ _ _ v Hl Hv). revert Hv. rewrite body_run. cbn.
  destruct (attempt p i _); cbn; intros [= <-]; reflexivity.
Qed.

Lemma obtener_datos_fmi_total p i a b s :
  exists df, res (obtener_datos_fmi p i a b s) = Ok df.
Proof.
  destruct (live s (p, i, a, b)) eqn:Hl.
  - apply live_spec in Hl as (e & Hk & Ht). rewrite (call_hit _ _ _ _ _ _ Hk Ht). cbn; eauto.
  - rewrite (call_miss _ _ _ _ _ Hl). cbn. destruct (attempt p i _); cbn; eauto.
Qed.

(** After a call the cache holds the value returned, under the arguments. *)
Lemma call_leaves_entry p i a b s :
  exists e, cache (fin (obtener_datos_fmi p i a b s)) !! (p, i, a, b) = Some e
    /\ res (obtener_datos_fmi p i a b s) = Ok (value e)
    /\ (live s (p, i, a, b) = false -> stored e = clock (fin (obtener_datos_fmi p i a b s))).
Proof.
  destruct (live s (p, i, a, b)) eqn:Hl.
  - destruct (proj1 (live_spec _ _) Hl) as (e & Hk & Ht).
    rewrite (call_hit _ _ _ _ _ _ Hk Ht). cbn. exists e. split; [done|]. split; [done|]. discriminate.
  - rewrite (call_miss _ _ _ _ _ Hl). cbn. destruct (attempt p i _); cbn.
    all: eexists; rewrite lookup_insert_eq; split; [reflexivity|]; split; [reflexivity|].
    all: cbn; intros _; lia.
Qed.

(** A call leaves the entries of other arguments as they are. *)
Lemma call_other_key p i a b s k :
  (p, i, a, b) <> k ->
  cache (fin (obtener_datos_fmi p i a b s)) !! k = cache s !! k.
Proof.
  intros Hne. destruct (live s (p, i, a, b)) eqn:Hl.
  - apply live_spec in Hl as (e & Hk & Ht). by rewrite (call_hit _ _ _ _ _ _ Hk Ht).
  - rewrite (call_miss _ _ _ _ _ Hl). cbn.
    destruct (attempt p i _); cbn; by rewrite lookup_insert_ne.
Qed.

Lemma other_calls_keep l k s :
  Forall (fun x => snd x <> k) l ->
  cache (fin (other_calls l s)) !! k = cache s !! k.
Proof.
  intros Hl. revert s. induction Hl as [|[d [[[p i] a] b]] l Hx _ IH]; intros s; [done|].
  cbn [other_calls]. rewrite (bind_ok _ _ _ tt) by done. cbn.
  destruct (obtener_datos_fmi_total p i a b (tick d s)) as [df Hdf].
  rewrite (bind_ok _ _ _ df) by done. cbn.
  rewrite IH, call_other_key by done. reflexivity.
Qed.

End Fetch_facts.

(** ** Lists of years *)

Lemma dropna_sublist (df : DataFrame) : dropna df `sublist_of` df.
Proof.
  induction df as [|r df IH]; cbn; [constructor|].
  destruct (notna r); by constructor.
Qed.

Lemma dropna_In (df : DataFrame) (r : Z * float) :
  In r (dropna df) <-> In r df /\ PrimFloat.is_nan (snd r) = false.
Proof.
  unfold dropna. rewrite filter_In. unfold notna.
  destruct (PrimFloat.is_nan (snd r)); cbn; intuition congruence.
Qed.

Section Normalise_facts.
Context `{Pandas}.

(** One label that does not convert makes the whole conversion raise. *)
Lemma index_astype_int_raises kv label :
  In label (map fst kv) -> astype_int label = None ->
  index_astype_int kv = Raise ValueError.
Proof.
  intros Hin Hn. induction kv as [|[label' cell] kv IH]; [done|]. cbn in *.
  destruct (astype_int label') eqn:Hl'.
  - destruct Hin as [->|Hin]; [congruence|]. by rewrite IH.
  - reflexivity.
Qed.

Lemma expected_attempt p i r kv :
  expected p i r kv ->
  attempt p i r
  = and_then (index_astype_int kv)
      (fun df => Ok (map (fun r => (fst r, to_numeric (snd r))) df)).
Proof.
  intros (response & data & Hg & Hs & Hb & Hp & Hc).
  unfold attempt, normalizar, raise_for_status, response_json. rewrite Hg, Hb.
  destruct (Z.leb_spec 400 (status_code response)), (Z.ltb_spec (status_code response) 600);
    try lia; cbn; rewrite Hp; cbn.
  all: destruct kv; [reflexivity|]; rewrite Hc; reflexivity.
Qed.

Lemma failure_attempt p i r :
  fetch_failure p i r -> exists e, attempt p i r = Raise e.
Proof.
  unfold attempt. intros [Hg | (response & Hg & Hf)]; rewrite Hg; [eauto|].
  unfold normalizar, raise_for_status, response_json.
  destruct (Z.leb_spec 400 (status_code response)), (Z.ltb_spec (status_code response) 600);
    cbn; eauto.
  all: destruct Hf as [Hs | [Hb | (data & e & Hb & Hp)]]; try lia.
  all: rewrite Hb; cbn; eauto.
  all: rewrite Hp; cbn; eauto.
Qed.

End Normalise_facts.

(** ** The claims about the fetch function *)

Section Claims_fetch.
Context `{Upstream} `{Pandas}.

(** C1 (as amended): the fetch never ends in an exception, whatever the
    arguments, the state and the upstream; and when it has to ask the
    upstream and the reply is a transport failure, a status in 400..599, a
    body that is not JSON or JSON without the path to the series, it returns
    the empty frame after one request and one error notice. *)
Theorem C1_fetch_never_raises (p i : string) (a b : Z) (s : state) :
  (exists df, res (obtener_datos_fmi p i a b s) = Ok df)
  /\ (live s (p, i, a, b) = false ->
      fetch_failure p i (upstream (nreq s) (url_fmi p i a b)) ->
      res (obtener_datos_fmi p i a b s) = Ok []
      /\ exists e, evs (obtener_datos_fmi p i a b s)
                   = [requests_get (url_fmi p i a b); st (st_error e)]).
Proof.
  split; [apply obtener_datos_fmi_total|].
  intros Hl Hf. rewrite (call_miss _ _ _ _ _ Hl). cbn.
  destruct (failure_attempt p i _ Hf) as [e ->]. cbn. eauto.
Qed.

(** C2: after a call the value returned sits in the cache under the full
    argument tuple. Whatever calls with other arguments and whatever time
    come in between, the next call with the same arguments is answered from
    that entry, with no request and the same value, while the clock is
    within 3600 seconds of the entry's storing; once that time has elapsed
    it sends exactly one request. *)
Theorem C2_cache_ttl (p i : string) (a b : Z) (s : state) (others : list (Z * key)) (d : Z) :
  Forall (fun x => snd x <> (p, i, a, b)) others ->
  let o1 := obtener_datos_fmi p i a b s in
  let s2 := tick d (fin (other_calls others (fin o1))) in
  let o2 := obtener_datos_fmi p i a b s2 in
  exists e,
    cache (fin o1) !! (p, i, a, b) = Some e
    /\ res o1 = Ok (value e)
    /\ (live s (p, i, a, b) = false ->
        stored e = clock (fin o1) /\ requests_of (evs o1) = [url_fmi p i a b])
    /\ (clock s2 < stored e + 3600 * 1000 ->
        res o2 = res o1 /\ requests_of (evs o2) = [] /\ nreq (fin o2) = nreq s2)
    /\ (stored e + 3600 * 1000 <= clock s2 ->
        requests_of (evs o2) = [url_fmi p i a b] /\ nreq (fin o2) = S (nreq s2)).
Proof.
  intros Hothers o1 s2 o2.
  destruct (call_leaves_entry p i a b s) as (e & He & Hres & Hst).
  assert (cache s2 !! (p, i, a, b) = Some e) as He2.
  { subst s2. cbn. by rewrite other_calls_keep. }
  exists e. split; [done|]. split; [done|]. split; [|split].
  - intros Hl. split; [auto|]. subst o1. rewrite (call_miss _ _ _ _ _ Hl). cbn.
    by destruct (attempt p i _).
  - intros Ht. subst o2. rewrite (call_hit _ _ _ _ _ _ He2 Ht). cbn.
    by rewrite requests_of_st.
  - intros Ht. subst o2. rewrite (call_miss _ _ _ _ _ (not_live_spec _ _ _ He2 Ht)). cbn.
    by destruct (attempt p i _).
Qed.

(** C8: the half-second sleep is made exactly when the call finds no live
    entry and lines 59 to 68 go through; it then follows the request, and
    no call sleeps otherwise. *)
Theorem C8_delay_iff_miss_and_success (p i : string) (a b : Z) (s : state) :
  let r := upstream (nreq s) (url_fmi p i a b) in
  let o := obtener_datos_fmi p i a b s in
  (sleeps_of (evs o) = [500] \/ sleeps_of (evs o) = [])
  /\ (sleeps_of (evs o) = [500]
      <-> live s (p, i, a, b) = false /\ exists df, attempt p i r = Ok df)
  /\ (sleeps_of (evs o) = [500] ->
      evs o = [requests_get (url_fmi p i a b); time_sleep 500]
      /\ clock (fin o) = clock s + took r + 500).
Proof.
  intros r o. subst o. destruct (live s (p, i, a, b)) eqn:Hl.
  - apply live_spec in Hl as (e & Hk & Ht). rewrite (call_hit _ _ _ _ _ _ Hk Ht). cbn.
    rewrite sleeps_of_st. split; [auto|]. split; [|done]. split; [done|by intros [? _]].
  - rewrite (call_miss _ _ _ _ _ Hl). cbn. fold r.
    destruct (attempt p i r) as [df|e]; cbn.
    + split; [auto|]. split; [|intros _; split; [done|lia]]. split; eauto.
    + split; [auto|]. split; [|done]. split; [done|]. by intros [_ [df ?]].
Qed.

(** C9: when the call finds no live entry and the [try] block ends in an
    exception, the empty frame is stored under the arguments like any other
    value, and a call with the same arguments within 3600 seconds of it
    returns that empty frame without a request. *)
Theorem C9_failed_fetch_is_cached (p i : string) (a b : Z) (s : state) (e : exn) (d : Z) :
  live s (p, i, a, b) = false ->
  attempt p i (upstream (nreq s) (url_fmi p i a b)) = Raise e ->
  d < 3600 * 1000 ->
  let o1 := obtener_datos_fmi p i a b s in
  let o2 := obtener_datos_fmi p i a b (tick d (fin o1)) in
  res o1 = Ok []
  /\ evs o1 = [requests_get (url_fmi p i a b); st (st_error e)]
  /\ cache (fin o1) !! (p, i, a, b)
     = Some {| value := []; stored := clock (fin o1); messages := [st_error e] |}
  /\ res o2 = Ok []
  /\ requests_of (evs o2) = []
  /\ nreq (fin o2) = nreq (fin o1).
Proof.
  intros Hl Ha Hd o1 o2.
  assert (o1 = Out (Ok []) [requests_get (url_fmi p i a b); st (st_error e)]
                 (stored_in (p, i, a, b)
                    {| value := [];
                       stored := clock s + took (upstream (nreq s) (url_fmi p i a b));
                       messages := [st_error e] |}
                    (arrived (upstream (nreq s) (url_fmi p i a b)) s))) as Ho1.
  { subst o1. rewrite (call_miss _ _ _ _ _ Hl). cbn. by rewrite Ha. }
  assert (cache (fin o1) !! (p, i, a, b)
          = Some {| value := []; stored := clock (fin o1); messages := [st_error e] |}) as He.
  { rewrite Ho1. cbn. by rewrite lookup_insert_eq. }
  split; [by rewrite Ho1|]. split; [by rewrite Ho1|]. split; [done|].
  subst o2. erewrite call_hit; [|exact He|cbn; unfold ttl; lia]. done.
Qed.

(** The normalised series of an expected response: the rows of the mapping
    whose value is a number after coercion, in the order of the response,
    with no notice; a year is in the result exactly when one of its values
    coerces to a number. *)
Lemma unparsable_values_dropped (p i : string) (a b : Z) (s : state)
    (kv : list (string * json)) (rows : list (Z * json)) :
  live s (p, i, a, b) = false ->
  expected p i (upstream (nreq s) (url_fmi p i a b)) kv ->
  index_astype_int kv = Ok rows ->
  let o := obtener_datos_fmi p i a b s in
  res o = Ok (dropna (map (fun r => (fst r, to_numeric (snd r))) rows))
  /\ evs o = [requests_get (url_fmi p i a b); time_sleep 500]
  /\ forall año valor,
       In (año, valor) (dropna (map (fun r => (fst r, to_numeric (snd r))) rows))
       <-> PrimFloat.is_nan valor = false
           /\ exists cell, In (año, cell) rows /\ to_numeric cell = valor.
Proof.
  intros Hl He Hrows o. subst o. rewrite (call_miss _ _ _ _ _ Hl). cbn.
  rewrite (expected_attempt _ _ _ _ He), Hrows. cbn. split; [done|]. split; [done|].
  intros año valor. rewrite dropna_In, in_map_iff. cbn. split.
  - intros [([año' cell] & [= <- <-] & Hin) Hnan]. eauto.
  - intros [Hnan (cell & Hin & <-)]. split; [|done]. by exists (año, cell).
Qed.

Lemma dropna_years (rows : list (Z * json)) :
  map fst (dropna (map (fun r => (fst r, to_numeric (snd r))) rows)) = kept_years rows.
Proof.
  unfold kept_years, dropna, notna. induction rows as [|[año cell] rows IH]; [done|].
  cbn. destruct (PrimFloat.is_nan (to_numeric cell)); cbn; by rewrite IH.
Qed.

Lemma kept_years_sublist (rows : list (Z * json)) :
  kept_years rows `sublist_of` map fst rows.
Proof.
  unfold kept_years. induction rows as [|[año cell] rows IH]; cbn; [constructor|].
  destruct (PrimFloat.is_nan (to_numeric cell)); cbn; by constructor.
Qed.

(** C4 (as amended): the years of the result are exactly the years of the
    upstream's rows whose value coerces to a number, in the order of the
    response (all of them years of the response). So the years of the result
    are unique exactly when those years of the upstream are, strictly
    increasing exactly when those are, and within the requested range
    exactly when those are. *)
Theorem C4_years_follow_upstream (p i : string) (a b : Z) (s : state)
    (kv : list (string * json)) (rows : list (Z * json)) :
  live s (p, i, a, b) = false ->
  expected p i (upstream (nreq s) (url_fmi p i a b)) kv ->
  index_astype_int kv = Ok rows ->
  exists df,
    res (obtener_datos_fmi p i a b s) = Ok df
    /\ map fst df = kept_years rows
    /\ kept_years rows `sublist_of` map fst rows
    /\ (NoDup (map fst df) <-> NoDup (kept_years rows))
    /\ (StronglySorted Z.lt (map fst df) <-> StronglySorted Z.lt (kept_years rows))
    /\ (Forall (fun año => a <= año <= b) (map fst df)
        <-> Forall (fun año => a <= año <= b) (kept_years rows)).
Proof.
  intros Hl He Hrows.
  destruct (unparsable_values_dropped p i a b s kv rows Hl He Hrows) as (Hres & _ & _).
  eexists. split; [exact Hres|]. rewrite dropna_years.
  split; [done|]. split; [apply kept_years_sublist|]. done.
Qed.

(** A year label that is no integer, in an otherwise expected response:
    the conversion of the index raises, the handler shows the notice and the
    call returns the empty frame, without the sleep. *)
Lemma unparsable_year_fails (p i : string) (a b : Z) (s : state)
    (kv : list (string * json)) (label : string) :
  live s (p, i, a, b) = false ->
  expected p i (upstream (nreq s) (url_fmi p i a b)) kv ->
  In label (map fst kv) ->
  astype_int label = None ->
  let o := obtener_datos_fmi p i a b s in
  res o = Ok [] /\ evs o = [requests_get (url_fmi p i a b); st (st_error ValueError)].
Proof.
  intros Hl He Hin Hn o. subst o. rewrite (call_miss _ _ _ _ _ Hl). cbn.
  rewrite (expected_attempt _ _ _ _ He), (index_astype_int_raises _ _ Hin Hn). done.
Qed.

End Claims_fetch.

(** ** Scenarios of the fetch function *)

Lemma expected_always (response : Response) (data : json) p i kv n url :
  body response = Some data ->
  (status_code response <? 400) || (600 <=? status_code response) = true ->
  series_at data i p = Ok (JObj kv) ->
  existsb is_container (map snd kv) = false ->
  expected p i (always response n url) kv.
Proof.
  intros Hb Hs Hp Hc. exists response, data. repeat split; auto. lia.
Qed.

(** C1, the counterexample: a reply with status 300 and a well-formed body.
    [raise_for_status] lets it pass, so the series comes back and no notice
    is shown. *)
Lemma C1_status_300_counterexample :
  let o := @obtener_datos_fmi
             (always {| status_code := 300; body := Some mocked_NGDP_R_US |})
             Plain.pandas "US" "NGDP_R" 2020 2022 start in
  res o = Ok [(2020, 100%float); (2021, 105.5%float)]
  /\ notices_of (evs o) = []
  /\ ~ (res o = Ok [] /\ exists e, In (st (st_error e)) (evs o)).
Proof.
  vm_compute. split; [reflexivity|]. split; [reflexivity|].
  intros [Hr _]. discriminate Hr.
Qed.

Lemma C1_fetch_never_raises_witness :
  let U := always {| status_code := 503; body := None |} in
  let o := @obtener_datos_fmi U Plain.pandas "MX" "NGDP_R" 2010 2023 start in
  res o = Ok []
  /\ exists e, evs o = [requests_get (url_fmi "MX" "NGDP_R" 2010 2023); st (st_error e)].
Proof.
  apply (@C1_fetch_never_raises (always {| status_code := 503; body := None |}) Plain.pandas).
  - reflexivity.
  - right. eexists. split; [reflexivity|]. left. cbn. lia.
Defined.

Lemma C2_cache_ttl_witness :
  let U := always (ok_json mocked_NGDP_R_US) in
  let others := [(1000, ("US", "NGDP_R", 2020, 2021)); (5, ("MX", "NGDP_R", 2020, 2022))] in
  let o1 := @obtener_datos_fmi U Plain.pandas "US" "NGDP_R" 2020 2022 start in
  let s2 := tick 3000000 (fin (@other_calls U Plain.pandas others (fin o1))) in
  let o2 := @obtener_datos_fmi U Plain.pandas "US" "NGDP_R" 2020 2022 s2 in
  Forall (fun x => snd x <> ("US", "NGDP_R", 2020, 2022)) others
  /\ res o2 = res o1 /\ requests_of (evs o2) = [].
Proof.
  intros U others o1 s2 o2.
  assert (Forall (fun x : Z * key => snd x <> ("US", "NGDP_R", 2020, 2022)) others) as Hothers.
  { repeat constructor; discriminate. }
  split; [exact Hothers|].
  destruct (@C2_cache_ttl U Plain.pandas "US" "NGDP_R" 2020 2022 start others 3000000 Hothers)
    as (e & He & _ & Hst & Hhit & _).
  assert (stored e = 500) as Hs by (apply Hst; reflexivity).
  destruct Hhit as (Hr & Hq & _); [rewrite Hs; vm_compute; reflexivity|].
  split; assumption.
Defined.

(** C3: in an expected response, a year whose value does not coerce to a
    number (null, a string that spells no number) is left out of the result
    and no notice is shown; the other years stay, with their values, in the
    order of the response. In the scenario of the specification the result
    is exactly [(2020, 100.0); (2021, 105.5)]. *)
Theorem C3_unparsable_values_dropped :
  (forall (U : Upstream) (P : Pandas) (p i : string) (a b : Z) (s : state)
          (kv : list (string * json)) (rows : list (Z * json)),
      live s (p, i, a, b) = false ->
      expected p i (upstream (nreq s) (url_fmi p i a b)) kv ->
      index_astype_int kv = Ok rows ->
      let o := obtener_datos_fmi p i a b s in
      res o = Ok (dropna (map (fun r => (fst r, to_numeric (snd r))) rows))
      /\ notices_of (evs o) = []
      /\ PrimFloat.is_nan (to_numeric JNull) = true
      /\ forall año valor,
           In (año, valor) (dropna (map (fun r => (fst r, to_numeric (snd r))) rows))
           <-> PrimFloat.is_nan valor = false
               /\ exists cell, In (año, cell) rows /\ to_numeric cell = valor)
  /\ (let o := @obtener_datos_fmi (always (ok_json mocked_NGDP_R_US)) Plain.pandas
                 "US" "NGDP_R" 2020 2022 start in
      res o = Ok [(2020, 100%float); (2021, 105.5%float)] /\ notices_of (evs o) = [])
  /\ (let o := @obtener_datos_fmi (always (ok_json mocked_with_text)) Plain.pandas
                 "US" "NGDP_R" 2020 2022 start in
      res o = Ok [(2020, 100%float); (2022, 3%float)] /\ notices_of (evs o) = []).
Proof.
  split; [|split; vm_compute; split; reflexivity].
  intros U P p i a b s kv rows Hl He Hrows o.
  destruct (unparsable_values_dropped p i a b s kv rows Hl He Hrows) as (Hres & Hevs & Hin).
  split; [exact Hres|]. split; [subst o; by rewrite Hevs|]. split; [reflexivity|exact Hin].
Qed.

Lemma C3_unparsable_values_dropped_witness :
  let U := always (ok_json mocked_NGDP_R_US) in
  let kv := [("2020", JStr "100"); ("2021", JStr "105.5"); ("2022", JNull)] in
  let rows := [(2020, JStr "100"); (2021, JStr "105.5"); (2022, JNull)] in
  live start ("US", "NGDP_R", 2020, 2022) = false
  /\ expected "US" "NGDP_R" (U 0%nat (url_fmi "US" "NGDP_R" 2020 2022)) kv
  /\ @index_astype_int Plain.pandas kv = Ok rows
  /\ (In (2021, 105.5%float)
        (dropna (map (fun r => (fst r, @to_numeric Plain.pandas (snd r))) rows))
      /\ ~ In (2022, nan)
        (dropna (map (fun r => (fst r, @to_numeric Plain.pandas (snd r))) rows))).
Proof.
  intros U kv rows.
  assert (live start ("US", "NGDP_R", 2020, 2022) = false) as Hl by reflexivity.
  assert (expected "US" "NGDP_R" (U 0%nat (url_fmi "US" "NGDP_R" 2020 2022)) kv) as He.
  { by eapply expected_always. }
  assert (@index_astype_int Plain.pandas kv = Ok rows) as Hrows by reflexivity.
  split; [exact Hl|]. split; [exact He|]. split; [exact Hrows|].
  destruct (proj1 C3_unparsable_values_dropped U Plain.pandas "US" "NGDP_R" 2020 2022
              start kv rows Hl He Hrows) as (_ & _ & _ & Hin).
  split.
  - apply Hin. split; [reflexivity|]. exists (JStr "105.5"). split; [|reflexivity].
    right. left. reflexivity.
  - intros Hbad. apply Hin in Hbad as [Hnan _]. discriminate Hnan.
Defined.

(** C4, the counterexample: asked for 2020 to 2021, the upstream answers
    with the years 2023, 2020 and 2020 again (written ["02020"]); the result
    keeps them as they come. *)
Lemma C4_years_counterexample :
  let data := JObj [("values", JObj [("NGDP_R", JObj [("US",
                JObj [("2023", JNum 7); ("2020", JNum 1); ("02020", JNum 2)])])])] in
  let o := @obtener_datos_fmi (always (ok_json data)) Plain.pandas "US" "NGDP_R" 2020 2021 start in
  exists df,
    res o = Ok df
    /\ notices_of (evs o) = []
    /\ map fst df = [2023; 2020; 2020]
    /\ ~ NoDup (map fst df)
    /\ ~ StronglySorted Z.lt (map fst df)
    /\ ~ Forall (fun año => 2020 <= año <= 2021) (map fst df).
Proof.
  eexists. split; [vm_compute; reflexivity|]. split; [vm_compute; reflexivity|].
  split; [reflexivity|]. cbn. split; [|split].
  - intros Hnd. inversion_clear Hnd as [|? ? _ Hnd']. inversion_clear Hnd' as [|? ? Hnin _].
    apply Hnin. by left.
  - intros Hs. inversion_clear Hs as [|? ? _ Hf]. inversion_clear Hf as [|? ? Hlt _]. lia.
  - intros Hf. inversion_clear Hf as [|? ? Hr _]. lia.
Qed.

Lemma C4_years_follow_upstream_witness :
  let U := always (ok_json mocked_NGDP_R_US) in
  let kv := [("2020", JStr "100"); ("2021", JStr "105.5"); ("2022", JNull)] in
  let rows := [(2020, JStr "100"); (2021, JStr "105.5"); (2022, JNull)] in
  live start ("US", "NGDP_R", 2020, 2022) = false
  /\ expected "US" "NGDP_R" (U 0%nat (url_fmi "US" "NGDP_R" 2020 2022)) kv
  /\ @index_astype_int Plain.pandas kv = Ok rows
  /\ @kept_years Plain.pandas rows = [2020; 2021]
  /\ exists df,
       res (@obtener_datos_fmi U Plain.pandas "US" "NGDP_R" 2020 2022 start) = Ok df
       /\ map fst df = [2020; 2021]
       /\ NoDup (map fst df)
       /\ StronglySorted Z.lt (map fst df)
       /\ Forall (fun año => 2020 <= año <= 2022) (map fst df).
Proof.
  intros U kv rows.
  assert (live start ("US", "NGDP_R", 2020, 2022) = false) as Hl by reflexivity.
  assert (expected "US" "NGDP_R" (U 0%nat (url_fmi "US" "NGDP_R" 2020 2022)) kv) as He.
  { by eapply expected_always. }
  assert (@index_astype_int Plain.pandas kv = Ok rows) as Hrows by reflexivity.
  assert (@kept_years Plain.pandas rows = [2020; 2021]) as Hkept by reflexivity.
  repeat (split; [assumption|]).
  destruct (@C4_years_follow_upstream U Plain.pandas "US" "NGDP_R" 2020 2022 start kv rows
              Hl He Hrows) as (df & Hres & Hyears & _ & Hnd & Hs & Hr).
  exists df. split; [exact Hres|]. split; [by rewrite Hyears|].
  rewrite Hkept in Hnd, Hs, Hr.
  split; [apply Hnd|split; [apply Hs|apply Hr]].
  - rewrite !NoDup_cons, !list_elem_of_In. cbn.
    repeat split; try constructor; intuition discriminate.
  - repeat constructor; lia.
  - repeat constructor; lia.
Defined.

Lemma C8_delay_iff_miss_and_success_witness :
  let U := always (ok_json mocked_NGDP_R_US) in
  let o := @obtener_datos_fmi U Plain.pandas "US" "NGDP_R" 2020 2022 start in
  sleeps_of (evs o) = [500]
  /\ evs o = [requests_get (url_fmi "US" "NGDP_R" 2020 2022); time_sleep 500]
  /\ clock (fin o) = 500
  /\ sleeps_of (evs (@obtener_datos_fmi U Plain.pandas "US" "NGDP_R" 2020 2022 (fin o))) = [].
Proof.
  intros U o.
  destruct (@C8_delay_iff_miss_and_success U Plain.pandas "US" "NGDP_R" 2020 2022 start)
    as (_ & Hiff & Hthen).
  assert (sleeps_of (evs o) = [500]) as Hs.
  { apply Hiff. split; [reflexivity|]. eexists. vm_compute. reflexivity. }
  split; [exact Hs|]. destruct (Hthen Hs) as [Hevs Hclock].
  split; [exact Hevs|]. split; [exact Hclock|].
  destruct (@C8_delay_iff_miss_and_success U Plain.pandas "US" "NGDP_R" 2020 2022 (fin o))
    as ([Hone | Hnone] & Hiff' & _); [|exact Hnone].
  apply Hiff' in Hone as [Hlive _]. vm_compute in Hlive. discriminate Hlive.
Defined.

Lemma C9_failed_fetch_is_cached_witness :
  let U := always {| status_code := 404; body := None |} in
  let o1 := @obtener_datos_fmi U Plain.pandas "MX" "FDI" 2010 2023 start in
  let o2 := @obtener_datos_fmi U Plain.pandas "MX" "FDI" 2010 2023 (tick 60000 (fin o1)) in
  live start ("MX", "FDI", 2010, 2023) = false
  /\ @attempt Plain.pandas "MX" "FDI" (U 0%nat (url_fmi "MX" "FDI" 2010 2023))
     = Raise (HTTPError 404)
  /\ 60000 < 3600 * 1000
  /\ res o1 = Ok [] /\ res o2 = Ok [] /\ requests_of (evs o2) = [].
Proof.
  intros U o1 o2.
  assert (live start ("MX", "FDI", 2010, 2023) = false) as Hl by reflexivity.
  assert (@attempt Plain.pandas "MX" "FDI" (U 0%nat (url_fmi "MX" "FDI" 2010 2023))
          = Raise (HTTPError 404)) as Ha by reflexivity.
  assert (60000 < 3600 * 1000) as Hd by lia.
  repeat (split; [assumption|]).
  destruct (@C9_failed_fetch_is_cached U Plain.pandas "MX" "FDI" 2010 2023 start
              (HTTPError 404) 60000 Hl Ha Hd) as (H1 & _ & _ & H2 & H3 & _).
  repeat split; assumption.
Defined.

(** C10: in an otherwise expected response, one year label that is no
    integer makes the whole fetch fail: the result is the empty frame and the
    error notice is shown, whatever the other entries hold. A value that does
    not coerce only loses its own row (second scenario against third). *)
Theorem C10_unparsable_year_fails_fetch :
  (forall (U : Upstream) (P : Pandas) (p i : string) (a b : Z) (s : state)
          (kv : list (string * json)) (label : string),
      live s (p, i, a, b) = false ->
      expected p i (upstream (nreq s) (url_fmi p i a b)) kv ->
      In label (map fst kv) ->
      astype_int label = None ->
      let o := obtener_datos_fmi p i a b s in
      res o = Ok [] /\ evs o = [requests_get (url_fmi p i a b); st (st_error ValueError)])
  /\ (let o := @obtener_datos_fmi (always (ok_json mocked_bad_year)) Plain.pandas
                 "US" "NGDP_R" 2020 2022 start in
      res o = Ok [] /\ notices_of (evs o) = [st_error ValueError])
  /\ (let o := @obtener_datos_fmi (always (ok_json mocked_with_text)) Plain.pandas
                 "US" "NGDP_R" 2020 2022 start in
      res o = Ok [(2020, 100%float); (2022, 3%float)] /\ notices_of (evs o) = []).
Proof.
  split; [|split; vm_compute; split; reflexivity].
  intros U P p i a b s kv label. apply unparsable_year_fails.
Qed.

Lemma C10_unparsable_year_fails_fetch_witness :
  let U := always (ok_json mocked_bad_year) in
  let kv := [("2020", JStr "100"); ("2021 (est.)", JStr "105.5"); ("2022", JNum 3)] in
  live start ("US", "NGDP_R", 2020, 2022) = false
  /\ expected "US" "NGDP_R" (U 0%nat (url_fmi "US" "NGDP_R" 2020 2022)) kv
  /\ In "2021 (est.)" (map fst kv)
  /\ Plain.int "2021 (est.)" = None
  /\ res (@obtener_datos_fmi U Plain.pandas "US" "NGDP_R" 2020 2022 start) = Ok [].
Proof.
  intros U kv.
  assert (live start ("US", "NGDP_R", 2020, 2022) = false) as Hl by reflexivity.
  assert (expected "US" "NGDP_R" (U 0%nat (url_fmi "US" "NGDP_R" 2020 2022)) kv) as He.
  { by eapply expected_always. }
  assert (In "2021 (est.)" (map fst kv)) as Hin by (right; left; reflexivity).
  assert (Plain.int "2021 (est.)" = None) as Hn by reflexivity.
  repeat (split; [assumption|]).
  exact (proj1 (proj1 C10_unparsable_year_fails_fetch U Plain.pandas "US" "NGDP_R" 2020 2022
                  start kv "2021 (est.)" Hl He Hin Hn)).
Defined.

(** ** The panels against their specification *)

Section Panel_facts.
Context `{Upstream} `{Pandas}.

Lemma recolectar_spec codigo a z paises :
  forall datos s,
    exists dfs,
      res (fetch_per_country codigo a z paises s) = Ok dfs
      /\ map fst dfs = paises
      /\ recolectar codigo a z paises datos s
         = Out (Ok (datos ++ tagged dfs))
             (evs (fetch_per_country codigo a z paises s))
             (fin (fetch_per_country codigo a z paises s)).
Proof.
  induction paises as [|p resto IH]; intros datos s.
  - exists []. cbn. by rewrite app_nil_r.
  - destruct (obtener_datos_fmi_total (iso2 p) codigo a z s) as [df Hdf].
    cbn [recolectar fetch_per_country].
    rewrite !(bind_ok _ _ _ df Hdf).
    set (s1 := fin (obtener_datos_fmi (iso2 p) codigo a z s)).
    destruct (empty df) eqn:Hempty; cbn [negb].
    + destruct (IH datos s1) as (dfs & Hf & Hsel & Hr).
      exists ((p, df) :: dfs). rewrite (bind_ok _ _ _ dfs Hf), Hr. cbn.
      rewrite app_nil_r. unfold tagged. cbn. rewrite Hempty. cbn.
      split; [done|]. split; [congruence|done].
    + destruct (IH (datos ++ [set_País df (nombre p)]) s1) as (dfs & Hf & Hsel & Hr).
      exists ((p, df) :: dfs). rewrite (bind_ok _ _ _ dfs Hf), Hr. cbn.
      rewrite app_nil_r. unfold tagged. cbn. rewrite Hempty. cbn.
      rewrite <- app_assoc. split; [done|]. split; [congruence|done].
Qed.

Lemma tagged_nonempty dfs : Forall (fun df => df <> []) (tagged dfs).
Proof.
  unfold tagged. induction dfs as [|[p df] dfs IH]; cbn; [constructor|].
  destruct df as [|r df]; cbn; [done|]. constructor; [discriminate|done].
Qed.

Lemma aggregated_panel_empty dfs : empty (aggregated_panel dfs) = empty (tagged dfs).
Proof.
  unfold aggregated_panel. pose proof (tagged_nonempty dfs) as Hne.
  destruct (tagged dfs) as [|df rest]; [done|].
  inversion_clear Hne as [|? ? Hdf _]. by destruct df.
Qed.

Lemma tagged_all_empty dfs : Forall (fun x => snd x = []) dfs -> tagged dfs = [].
Proof.
  unfold tagged. induction 1 as [|[p df] dfs Hx _ IH]; [done|].
  cbn in *. subst df. done.
Qed.

(** The panel in full: the header, the fetches and, when some country has
    data, the chart of the aggregated panel. *)
Lemma panel_spec header codigo titulo tipo unidad paises a z s :
  exists dfs,
    res (fetch_per_country codigo a z paises s) = Ok dfs
    /\ map fst dfs = paises
    /\ panel header codigo titulo tipo unidad paises a z s
       = let f := fetch_per_country codigo a z paises s in
         if empty (tagged dfs)
         then Out (Ok tt) (st (st_header header) :: evs f) (fin f)
         else
           let g := crear_grafico_comparativo (aggregated_panel dfs) titulo tipo unidad true (fin f) in
           Out (res g) (st (st_header header) :: evs f ++ evs g) (fin g).
Proof.
  destruct (recolectar_spec codigo a z paises [] s) as (dfs & Hf & Hsel & Hr).
  exists dfs. split; [done|]. split; [done|].
  unfold panel. rewrite (bind_ok _ _ _ tt) by done.
  assert (res (recolectar codigo a z paises [] s) = Ok (tagged dfs)) as Hres by (by rewrite Hr).
  rewrite (bind_ok _ _ _ _ Hres), Hr. cbn.
  destruct (tagged dfs) as [|df rest] eqn:Ht; cbn.
  - by rewrite app_nil_r.
  - unfold aggregated_panel. rewrite Ht. unfold bind, lift. cbn. reflexivity.
Qed.

(** With data, the helper draws the chart first and never the warning. *)
Lemma crear_grafico_no_warning df titulo tipo unidad show_table s :
  empty df = false ->
  forall m, ~ In (st (st_warning m)) (evs (crear_grafico_comparativo df titulo tipo unidad show_table s)).
Proof.
  intros Hne m. unfold crear_grafico_comparativo. rewrite Hne.
  unfold bind, emit, lift, ret. cbn.
  destruct show_table; cbn.
  - destruct (pivot df); cbn; intros [Hin | Hin]; try discriminate Hin;
      try (destruct Hin as [Hin | []]; discriminate Hin); done.
  - intros [Hin | []]. discriminate Hin.
Qed.

End Panel_facts.

(** ** The claims about the panels *)

Lemma aggregated_panel_In dfs (f : fila) :
  In f (aggregated_panel dfs)
  <-> exists p df, In (p, df) dfs /\ In (Año f, Valor f) df /\ País f = nombre p.
Proof.
  unfold aggregated_panel, tagged. rewrite in_concat. split.
  - intros (l & Hl & Hf). apply in_map_iff in Hl as ([p df] & <- & Hin).
    apply filter_In in Hin as [Hin _]. cbn in Hf.
    apply in_map_iff in Hf as ([año valor] & <- & Hr). cbn. eauto.
  - intros (p & df & Hin & Hr & Hp). exists (set_País df (nombre p)). split.
    + apply in_map_iff. exists (p, df). split; [done|]. apply filter_In. split; [done|].
      cbn. by destruct df.
    + apply in_map_iff. exists (Año f, Valor f). split; [|done].
      destruct f; cbn in *. by subst.
Qed.

(** C5 (the code departs from it): what a panel puts on the page after its
    header and its fetches is never the warning of
    [crear_grafico_comparativo]; when no selected country has data it is
    nothing at all. With Mexico selected and a server error, the page shows
    the header and the error notice of the fetch; with a series of nulls it
    shows the header alone. *)
Theorem C5_no_data_panel_is_silent :
  (forall (U : Upstream) (P : Pandas) (header codigo titulo tipo unidad : string)
          (paises : list pais) (a z : Z) (s : state),
      let f := fetch_per_country codigo a z paises s in
      let o := panel header codigo titulo tipo unidad paises a z s in
      exists dfs extra,
        res f = Ok dfs
        /\ evs o = st (st_header header) :: evs f ++ extra
        /\ (forall m, ~ In (st (st_warning m)) extra)
        /\ (Forall (fun x => snd x = []) dfs -> extra = [] /\ res o = Ok tt))
  /\ (let o := @datos_pib (always {| status_code := 500; body := None |}) Plain.pandas
                 [MEX] 2010 2023 start in
      res o = Ok tt
      /\ notices_of (evs o)
         = [st_header "1. Producto Interno Bruto (PIB)"; st_error (HTTPError 500)])
  /\ (let o := @datos_pib (always (ok_json all_null)) Plain.pandas [MEX] 2010 2023 start in
      res o = Ok tt
      /\ notices_of (evs o) = [st_header "1. Producto Interno Bruto (PIB)"]).
Proof.
  split; [|split; vm_compute; split; reflexivity].
  intros U P header codigo titulo tipo unidad paises a z s f o.
  destruct (panel_spec header codigo titulo tipo unidad paises a z s) as (dfs & Hf & _ & Hp).
  exists dfs. subst o f. rewrite Hp. cbn. destruct (empty (tagged dfs)) eqn:He.
  - exists []. cbn. rewrite app_nil_r. repeat split; auto.
  - eexists. cbn. split; [done|]. split; [reflexivity|]. split.
    + apply crear_grafico_no_warning. by rewrite aggregated_panel_empty.
    + intros Hall. rewrite (tagged_all_empty _ Hall) in He. discriminate He.
Qed.

(** C6: the loop of a panel is the specification's aggregation. The fetch
    runs once per selected country, in order; the list collected holds, for
    each country with data, its rows tagged with its display name; the chart
    is drawn from their concatenation. With Mexico failing and the United
    States answering, the panel draws the rows of the United States only and
    ends normally. *)
Theorem C6_panel_aggregates :
  (forall (U : Upstream) (P : Pandas) (header codigo titulo tipo unidad : string)
          (paises : list pais) (a z : Z) (s : state),
      let f := fetch_per_country codigo a z paises s in
      exists dfs,
        res f = Ok dfs
        /\ map fst dfs = paises
        /\ recolectar codigo a z paises [] s = Out (Ok (tagged dfs)) (evs f) (fin f)
        /\ (forall fila, In fila (aggregated_panel dfs)
              <-> exists p df, In (p, df) dfs /\ In (Año fila, Valor fila) df
                               /\ País fila = nombre p)
        /\ panel header codigo titulo tipo unidad paises a z s
           = if empty (tagged dfs)
             then Out (Ok tt) (st (st_header header) :: evs f) (fin f)
             else
               let g := crear_grafico_comparativo (aggregated_panel dfs) titulo tipo unidad
                          true (fin f) in
               Out (res g) (st (st_header header) :: evs f ++ evs g) (fin g))
  /\ (let o := @datos_pib mex_fails_usa_succeeds Plain.pandas [MEX; USA] 2020 2022 start in
      let filas := [ {| Año := 2020; Valor := 100; País := "Estados Unidos" |};
                     {| Año := 2021; Valor := 105.5; País := "Estados Unidos" |} ] in
      res o = Ok tt
      /\ requests_of (evs o)
         = [url_fmi "MX" "NGDP_R" 2020 2022; url_fmi "US" "NGDP_R" 2020 2022]
      /\ notices_of (evs o)
         = [ st_header "1. Producto Interno Bruto (PIB)";
             st_error (HTTPError 500);
             st_plotly_chart (px_bar filas "Evolución del PIB (USD)" "USD");
             st_dataframe [ (2020, "Estados Unidos", 100%float);
                            (2021, "Estados Unidos", 105.5%float) ] ]).
Proof.
  split; [|vm_compute; repeat split; reflexivity].
  intros U P header codigo titulo tipo unidad paises a z s f.
  destruct (panel_spec header codigo titulo tipo unidad paises a z s) as (dfs & Hf & Hsel & Hp).
  destruct (recolectar_spec codigo a z paises [] s) as (dfs' & Hf' & _ & Hr).
  assert (dfs' = dfs) as -> by congruence.
  exists dfs. split; [done|]. split; [done|]. split; [exact Hr|].
  split; [apply aggregated_panel_In|exact Hp].
Qed.

Lemma C5_no_data_panel_is_silent_witness :
  let U := always {| status_code := 500; body := None |} in
  let o := @panel U Plain.pandas "1. Producto Interno Bruto (PIB)" "NGDP_R"
             "Evolución del PIB" "bar" "USD" [MEX] 2010 2023 start in
  res o = Ok tt /\ forall m, ~ In (st (st_warning m)) (evs o).
Proof.
  intros U o.
  destruct (proj1 C5_no_data_panel_is_silent U Plain.pandas
              "1. Producto Interno Bruto (PIB)" "NGDP_R" "Evolución del PIB" "bar" "USD"
              [MEX] 2010 2023 start) as (dfs & extra & Hf & Hevs & _ & Hsilent).
  vm_compute in Hf. injection Hf as <-.
  destruct Hsilent as [-> Hres]; [repeat constructor|].
  split; [exact Hres|]. intros m. subst o. rewrite Hevs. vm_compute.
  intros [Hin | [Hin | [Hin | []]]]; discriminate Hin.
Defined.

Section Trade_facts.
Context `{Upstream} `{Pandas}.

Lemma recolectar_balanza_spec año paises :
  forall datos s,
    exists dfs,
      res (fetch_trade_per_country año paises s) = Ok dfs
      /\ map (fun x => fst (fst x)) dfs = paises
      /\ recolectar_balanza año paises datos s
         = Out (Ok (datos ++ trade_rows dfs))
             (evs (fetch_trade_per_country año paises s))
             (fin (fetch_trade_per_country año paises s)).
Proof.
  induction paises as [|p resto IH]; intros datos s.
  - exists []. cbn. by rewrite app_nil_r.
  - destruct (obtener_datos_fmi_total (iso2 p) "TXG_FOB_USD" año año s) as [dfe He].
    cbn [recolectar_balanza fetch_trade_per_country].
    rewrite !(bind_ok _ _ _ dfe He).
    set (s1 := fin (obtener_datos_fmi (iso2 p) "TXG_FOB_USD" año año s)).
    destruct (obtener_datos_fmi_total (iso2 p) "TMG_CIF_USD" año año s1) as [dfi Hi].
    rewrite !(bind_ok _ _ _ dfi Hi).
    set (s2 := fin (obtener_datos_fmi (iso2 p) "TMG_CIF_USD" año año s1)).
    destruct dfe as [|e dfe], dfi as [|i dfi]; cbn [empty negb andb].
    4: { destruct (IH (datos ++ [{| bal_País := nombre p; Exportaciones := snd e;
                                    Importaciones := snd i |}]) s2) as (dfs & Hf & Hsel & Hr).
         exists ((p, e :: dfe, i :: dfi) :: dfs). rewrite (bind_ok _ _ _ dfs Hf). cbn.
         rewrite Hr. cbn.
         rewrite !app_nil_r, <- app_assoc. split; [done|]. split; [congruence|done]. }
    all: destruct (IH datos s2) as (dfs & Hf & Hsel & Hr).
    all: eexists ((p, _, _) :: dfs); rewrite (bind_ok _ _ _ dfs Hf), Hr; cbn.
    all: rewrite !app_nil_r; split; [done|]; split; [congruence|done].
Qed.

(** The trade-balance block in full. *)
Lemma balanza_comercial_spec paises año_fin s :
  exists dfs,
    res (fetch_trade_per_country año_fin paises s) = Ok dfs
    /\ map (fun x => fst (fst x)) dfs = paises
    /\ balanza_comercial paises año_fin s
       = let f := fetch_trade_per_country año_fin paises s in
         Out (Ok tt)
           (st (st_header "4. Balanza Comercial (Último Año)") :: evs f
            ++ if empty (trade_rows dfs) then []
               else [st (st_plotly_chart
                           (px_bar_tipo (melt (trade_rows dfs))
                              ("Balanza Comercial (" +:+ pretty año_fin +:+ ")")))])
           (fin f).
Proof.
  destruct (recolectar_balanza_spec año_fin paises [] s) as (dfs & Hf & Hsel & Hr).
  exists dfs. split; [done|]. split; [done|].
  unfold balanza_comercial. rewrite (bind_ok _ _ _ tt) by done. cbn.
  destruct paises as [|p resto]; cbn [empty negb].
  - cbn in Hf. injection Hf as <-. reflexivity.
  - assert (res (recolectar_balanza año_fin (p :: resto) [] s) = Ok (trade_rows dfs)) as Hres
      by (by rewrite Hr).
    rewrite (bind_ok _ _ _ _ Hres), Hr. cbn.
    destruct (trade_rows dfs); reflexivity.
Qed.

End Trade_facts.

(** C7, the counterexample: in the scenario of the specification the two
    bars carry the labels of the frame's columns, which are in Spanish. *)
Lemma C7_labels_counterexample :
  let o := @balanza_comercial exports_50_imports_70 Plain.pandas [MEX] 2023 start in
  exists barras titulo,
    notices_of (evs o)
    = [st_header "4. Balanza Comercial (Último Año)"; st_plotly_chart (px_bar_tipo barras titulo)]
    /\ map b_Valor barras = [50%float; 70%float]
    /\ map Tipo barras = ["Exportaciones"; "Importaciones"]
    /\ map Tipo barras <> ["Exports"; "Imports"].
Proof.
  eexists _, _. split; [vm_compute; reflexivity|]. cbn. repeat split. discriminate.
Qed.

(** C7 (as amended): the trade-balance block fetches, for each selected
    country in turn, the exports and then the imports, each for the single
    year that ends the selected range; a country with data in both gives one
    row, and the chart holds for every row two bars, labelled
    ["Exportaciones"] and ["Importaciones"], with the first value of each
    series. For one country and one year with exports 50 and imports 70 the
    two bars are exactly 50 and 70 under these labels. *)
Theorem C7_trade_balance :
  (forall (U : Upstream) (P : Pandas) (paises : list pais) (año_fin : Z) (s : state),
      let f := fetch_trade_per_country año_fin paises s in
      exists dfs,
        res f = Ok dfs
        /\ map (fun x => fst (fst x)) dfs = paises
        /\ balanza_comercial paises año_fin s
           = Out (Ok tt)
               (st (st_header "4. Balanza Comercial (Último Año)") :: evs f
                ++ if empty (trade_rows dfs) then []
                   else [st (st_plotly_chart
                               (px_bar_tipo (melt (trade_rows dfs))
                                  ("Balanza Comercial (" +:+ pretty año_fin +:+ ")")))])
               (fin f)
        /\ length (melt (trade_rows dfs)) = (2 * length (trade_rows dfs))%nat
        /\ forall d, In d (trade_rows dfs) ->
             In {| b_País := bal_País d; Tipo := "Exportaciones"; b_Valor := Exportaciones d |}
                (melt (trade_rows dfs))
             /\ In {| b_País := bal_País d; Tipo := "Importaciones"; b_Valor := Importaciones d |}
                (melt (trade_rows dfs)))
  /\ (let o := @balanza_comercial exports_50_imports_70 Plain.pandas [MEX] 2023 start in
      res o = Ok tt
      /\ requests_of (evs o)
         = [url_fmi "MX" "TXG_FOB_USD" 2023 2023; url_fmi "MX" "TMG_CIF_USD" 2023 2023]
      /\ notices_of (evs o)
         = [ st_header "4. Balanza Comercial (Último Año)";
             st_plotly_chart
               (px_bar_tipo
                  [ {| b_País := "México"; Tipo := "Exportaciones"; b_Valor := 50 |};
                    {| b_País := "México"; Tipo := "Importaciones"; b_Valor := 70 |} ]
                  "Balanza Comercial (2023)") ]).
Proof.
  split; [|vm_compute; repeat split; reflexivity].
  intros U P paises año_fin s f.
  destruct (balanza_comercial_spec paises año_fin s) as (dfs & Hf & Hsel & Hb).
  exists dfs. split; [done|]. split; [done|]. split; [exact Hb|]. split.
  - unfold melt. rewrite length_app, !length_map. lia.
  - intros d Hd. unfold melt. split; apply in_or_app; [left|right].
    + by apply (in_map (fun d => {| b_País := bal_País d; Tipo := "Exportaciones";
                                    b_Valor := Exportaciones d |})).
    + by apply (in_map (fun d => {| b_País := bal_País d; Tipo := "Importaciones";
                                    b_Valor := Importaciones d |})).
Qed.

Lemma C7_trade_balance_witness :
  let U := exports_50_imports_70 in
  let d := {| bal_País := "México"; Exportaciones := 50; Importaciones := 70 |} in
  exists dfs,
    res (@fetch_trade_per_country U Plain.pandas 2023 [MEX] start) = Ok dfs
    /\ In d (trade_rows dfs)
    /\ In {| b_País := "México"; Tipo := "Exportaciones"; b_Valor := 50 |} (melt (trade_rows dfs))
    /\ In {| b_País := "México"; Tipo := "Importaciones"; b_Valor := 70 |} (melt (trade_rows dfs)).
Proof.
  intros U d.
  destruct (proj1 C7_trade_balance U Plain.pandas [MEX] 2023 start)
    as (dfs & Hf & _ & _ & _ & Hbars).
  exists dfs. split; [exact Hf|].
  assert (In d (trade_rows dfs)) as Hd.
  { vm_compute in Hf. injection Hf as <-. left. reflexivity. }
  split; [exact Hd|]. exact (Hbars d Hd).
Defined.

(** ** The chart helper and its table *)

Lemma same_cell_spec (r x : fila) : same_cell r x = true <-> cell_of r = cell_of x.
Proof.
  unfold same_cell, cell_of. rewrite andb_true_iff, Z.eqb_eq, String.eqb_eq.
  split; [intros [-> ->]; done | intros [= -> ->]; done].
Qed.

Lemma existsb_same_cell (r : fila) (rest : list fila) :
  existsb (same_cell r) rest = true <-> cell_of r ∈ map cell_of rest.
Proof.
  rewrite existsb_exists, list_elem_of_In, in_map_iff. split.
  - intros (x & Hx & Hs). exists x. by apply same_cell_spec in Hs.
  - intros (x & Hs & Hx). exists x. split; [done|]. by apply same_cell_spec.
Qed.

Lemma repeated_cell_spec (df : list fila) :
  repeated_cell df = false <-> NoDup (map cell_of df).
Proof.
  induction df as [|r rest IH]; [split; [constructor|done]|].
  cbn [repeated_cell map]. rewrite orb_false_iff, IH, NoDup_cons.
  split; intros [Hex Hnd]; split; try done.
  - intros Hin. apply existsb_same_cell in Hin. congruence.
  - destruct (existsb (same_cell r) rest) eqn:He; [|done].
    exfalso. by apply Hex, existsb_same_cell.
Qed.

(** [pivot] builds the table exactly when no two rows fill one cell. *)
Lemma pivot_cases (df : list fila) :
  (pivot df = Ok (unstack df) /\ NoDup (map cell_of df))
  \/ (pivot df = Raise ValueError /\ ~ NoDup (map cell_of df)).
Proof.
  unfold pivot. destruct (repeated_cell df) eqn:Hr.
  - right. split; [done|]. intros Hnd. apply repeated_cell_spec in Hnd. congruence.
  - left. split; [done|]. by apply repeated_cell_spec.
Qed.

(** *** The labels of the table *)

Lemma insert_año_In (año x : Z) (l : list Z) :
  In x (insert_año año l) <-> x = año \/ In x l.
Proof.
  induction l as [|y l IH]; cbn; [intuition|].
  destruct (Z.ltb_spec año y); [cbn; intuition|].
  destruct (Z.eqb_spec año y); cbn; [subst; intuition|]. rewrite IH. intuition.
Qed.

Lemma insert_año_sorted (año : Z) (l : list Z) :
  StronglySorted Z.lt l -> StronglySorted Z.lt (insert_año año l).
Proof.
  induction 1 as [|y l Hs IH Hy]; cbn; [repeat constructor|].
  destruct (Z.ltb_spec año y).
  - constructor; [by constructor|]. constructor; [done|].
    eapply Forall_impl; [exact Hy|]. cbn. intros; lia.
  - destruct (Z.eqb_spec año y); [by constructor|].
    constructor; [done|]. apply Forall_forall. intros x Hx.
    apply list_elem_of_In, insert_año_In in Hx as [->|Hx]; [lia|].
    rewrite Forall_forall in Hy. by apply Hy, list_elem_of_In.
Qed.

Lemma index_of_In (df : list fila) (año : Z) :
  In año (index_of df) <-> In año (map Año df).
Proof.
  unfold index_of. induction df as [|r df IH]; [done|]. cbn.
  rewrite insert_año_In, IH. intuition.
Qed.

Lemma index_of_sorted (df : list fila) : StronglySorted Z.lt (index_of df).
Proof.
  unfold index_of. induction df as [|r df IH]; cbn; [constructor|].
  by apply insert_año_sorted.
Qed.

Lemma string_compare_lt_trans (a b c : string) :
  String.compare a b = Lt -> String.compare b c = Lt -> String.compare a c = Lt.
Proof.
  revert b c. induction a as [|x a IH]; intros [|y b] [|z c]; cbn; try done.
  unfold Ascii.compare.
  destruct (N.compare_spec (N_of_ascii x) (N_of_ascii y)) as [Hxy|Hxy|Hxy];
    destruct (N.compare_spec (N_of_ascii y) (N_of_ascii z)) as [Hyz|Hyz|Hyz];
    try done; intros Hab Hbc.
  - rewrite Hxy, Hyz, N.compare_refl. by eapply IH.
  - rewrite Hxy. by apply N.compare_lt_iff in Hyz as ->.
  - rewrite <- Hyz. by apply N.compare_lt_iff in Hxy as ->.
  - assert (N_of_ascii x < N_of_ascii z)%N as Hxz by lia.
    by apply N.compare_lt_iff in Hxz as ->.
Qed.

Lemma país_lt_trans (a b c : string) : país_lt a b -> país_lt b c -> país_lt a c.
Proof.
  unfold país_lt, String.ltb. intros Hab Hbc.
  destruct (String.compare a b) eqn:Eab; try done.
  destruct (String.compare b c) eqn:Ebc; try done.
  by rewrite (string_compare_lt_trans a b c).
Qed.

(** Neither before nor equal: after. *)
Lemma país_lt_after (a b : string) :
  String.ltb a b = false -> String.eqb a b = false -> país_lt b a.
Proof.
  unfold país_lt, String.ltb. intros Hlt Hne. rewrite String.compare_antisym.
  destruct (String.compare a b) eqn:Eab; try done.
  apply String.compare_eq_iff in Eab. apply String.eqb_neq in Hne. done.
Qed.

Lemma insert_país_In (país x : string) (l : list string) :
  In x (insert_país país l) <-> x = país \/ In x l.
Proof.
  induction l as [|y l IH]; cbn; [intuition|].
  destruct (String.ltb país y); [cbn; intuition|].
  destruct (String.eqb_spec país y); cbn; [subst; intuition|]. rewrite IH. intuition.
Qed.

Lemma insert_país_sorted (país : string) (l : list string) :
  StronglySorted país_lt l -> StronglySorted país_lt (insert_país país l).
Proof.
  induction 1 as [|y l Hs IH Hy]; cbn; [repeat constructor|].
  destruct (String.ltb país y) eqn:Hlt.
  - constructor; [by constructor|]. constructor; [done|].
    eapply Forall_impl; [exact Hy|]. cbn. intros x Hx. by eapply país_lt_trans.
  - destruct (String.eqb país y) eqn:Heq; [by constructor|].
    constructor; [done|]. apply Forall_forall. intros x Hx.
    apply list_elem_of_In, insert_país_In in Hx as [->|Hx]; [by apply país_lt_after|].
    rewrite Forall_forall in Hy. by apply Hy, list_elem_of_In.
Qed.

Lemma columns_of_In (df : list fila) (país : string) :
  In país (columns_of df) <-> In país (map País df).
Proof.
  unfold columns_of. induction df as [|r df IH]; [done|]. cbn.
  rewrite insert_país_In, IH. intuition.
Qed.

Lemma columns_of_sorted (df : list fila) : StronglySorted país_lt (columns_of df).
Proof.
  unfold columns_of. induction df as [|r df IH]; cbn; [constructor|].
  by apply insert_país_sorted.
Qed.

(** *** The cells of the table *)

Lemma cell_at_missing (df : list fila) (año : Z) (país : string) :
  ~ In (año, país) (map cell_of df) -> cell_at df año país = nan.
Proof.
  intros Hnin. unfold cell_at.
  destruct (List.find _ df) as [r|] eqn:Hfind; [|done].
  apply find_some in Hfind as [Hin Hr]. exfalso. apply Hnin.
  apply andb_true_iff in Hr as [Hy Hc]. apply Z.eqb_eq in Hy. apply String.eqb_eq in Hc.
  apply in_map_iff. exists r. unfold cell_of. by rewrite Hy, Hc.
Qed.

Lemma cell_at_row (df : list fila) (r : fila) :
  NoDup (map cell_of df) -> In r df -> cell_at df (Año r) (País r) = Valor r.
Proof.
  unfold cell_at. induction df as [|r' df IH]; intros Hnd Hin; [done|].
  cbn in Hnd. apply NoDup_cons in Hnd as [Hnin Hnd]. cbn [List.find].
  destruct ((Año r' =? Año r) && String.eqb (País r') (País r)) eqn:Hsame.
  - destruct Hin as [->|Hin]; [done|]. exfalso. apply Hnin.
    apply andb_true_iff in Hsame as [Hy Hc]. apply Z.eqb_eq in Hy. apply String.eqb_eq in Hc.
    apply list_elem_of_In, in_map_iff. exists r. unfold cell_of. by rewrite Hy, Hc.
  - destruct Hin as [->|Hin]; [|by apply IH].
    rewrite Z.eqb_refl, String.eqb_refl in Hsame. discriminate Hsame.
Qed.

(** X1: [crear_grafico_comparativo] in full. Without rows it shows the
    warning and nothing else. With rows it draws the chart first (a line
    chart for ["line"], a bar chart for any other [tipo]); the table follows
    when asked for, and the call raises [ValueError] at that point exactly
    when two rows share year and country. The table has a cell for every
    year and every country of the frame, years ascending and, within a year,
    countries ascending; a cell holds the value of its row, or NaN when the
    frame has no row for it. The call sends nothing, never sleeps and leaves
    the state as it is. *)
Theorem X1_crear_grafico_comparativo_outcome (df : list fila) (titulo tipo unidad : string)
    (show_table : bool) (s : state) :
  let o := crear_grafico_comparativo df titulo tipo unidad show_table s in
  let chart := st (st_plotly_chart (figure_of df titulo tipo unidad)) in
  fin o = s
  /\ requests_of (evs o) = [] /\ sleeps_of (evs o) = []
  /\ (df = [] ->
      res o = Ok tt /\ evs o = [st (st_warning ("No hay datos disponibles para " +:+ titulo))])
  /\ (df <> [] -> show_table = false -> res o = Ok tt /\ evs o = [chart])
  /\ (df <> [] -> show_table = true -> ~ NoDup (map cell_of df) ->
      res o = Raise ValueError /\ evs o = [chart])
  /\ (df <> [] -> show_table = true -> NoDup (map cell_of df) ->
      res o = Ok tt
      /\ evs o = [chart; st (st_dataframe (unstack df))]
      /\ unstack df
         = flat_map (fun año => map (fun país => (año, país, cell_at df año país))
                                  (columns_of df)) (index_of df)
      /\ StronglySorted Z.lt (index_of df)
      /\ StronglySorted país_lt (columns_of df)
      /\ (forall año, In año (index_of df) <-> In año (map Año df))
      /\ (forall país, In país (columns_of df) <-> In país (map País df))
      /\ (forall r, In r df -> cell_at df (Año r) (País r) = Valor r)
      /\ (forall año país, ~ In (año, país) (map cell_of df) -> cell_at df año país = nan)).
Proof.
  unfold crear_grafico_comparativo, figure_of.
  destruct df as [|r rest]; cbn [empty].
  { cbn. split; [done|]. split; [done|]. split; [done|]. split; [done|].
    split; [|split]; intros Hne; by destruct Hne. }
  destruct show_table.
  - destruct (pivot_cases (r :: rest)) as [[Hp Hnd] | [Hp Hnd]];
      unfold bind, emit, lift; cbn -[pivot unstack index_of columns_of cell_at]; rewrite Hp;
      cbn -[unstack index_of columns_of cell_at].
    + split; [done|]. split; [done|]. split; [done|]. split; [done|]. split; [done|].
      split; [done|]. intros _ _ _.
      split; [done|]. split; [done|]. split; [done|].
      split; [exact (index_of_sorted (r :: rest))|].
      split; [exact (columns_of_sorted (r :: rest))|].
      split; [exact (index_of_In (r :: rest))|].
      split; [exact (columns_of_In (r :: rest))|].
      split; [exact (fun r0 => cell_at_row (r :: rest) r0 Hnd)
             |exact (cell_at_missing (r :: rest))].
    + repeat split; intros; done.
  - unfold bind, emit, ret; cbn. repeat split; intros; done.
Qed.

Lemma X1_crear_grafico_comparativo_outcome_witness :
  let dup := [ {| Año := 2020; Valor := 1; País := "Chile" |};
               {| Año := 2020; Valor := 2; País := "Chile" |} ] in
  let df := [ {| Año := 2023; Valor := 3; País := "México" |};
              {| Año := 2020; Valor := 1; País := "Chile" |};
              {| Año := 2020; Valor := 2; País := "México" |} ] in
  dup <> [] /\ ~ NoDup (map cell_of dup)
  /\ df <> [] /\ NoDup (map cell_of df)
  /\ res (crear_grafico_comparativo dup "PIB" "bar" "USD" true start) = Raise ValueError
  /\ res (crear_grafico_comparativo dup "PIB" "bar" "USD" false start) = Ok tt
  /\ res (crear_grafico_comparativo df "PIB" "bar" "USD" true start) = Ok tt
  /\ cell_at df 2023 "México" = 3%float
  /\ cell_at df 2023 "Chile" = nan
  /\ unstack df
     = [ (2020, "Chile", 1%float); (2020, "México", 2%float);
         (2023, "Chile", nan); (2023, "México", 3%float) ].
Proof.
  intros dup df.
  assert (dup <> []) as Hne by discriminate.
  assert (~ NoDup (map cell_of dup)) as Hdup.
  { cbn. rewrite NoDup_cons. intros [Hnin _]. apply Hnin. by left. }
  assert (df <> []) as Hne' by discriminate.
  assert (NoDup (map cell_of df)) as Hnd.
  { cbn. rewrite !NoDup_cons, !list_elem_of_In. cbn.
    repeat split; try constructor; intuition discriminate. }
  split; [exact Hne|]. split; [exact Hdup|]. split; [exact Hne'|]. split; [exact Hnd|].
  destruct (X1_crear_grafico_comparativo_outcome dup "PIB" "bar" "USD" true start)
    as (_ & _ & _ & _ & _ & Hraise & _).
  destruct (X1_crear_grafico_comparativo_outcome dup "PIB" "bar" "USD" false start)
    as (_ & _ & _ & _ & Hplain & _).
  destruct (X1_crear_grafico_comparativo_outcome df "PIB" "bar" "USD" true start)
    as (_ & _ & _ & _ & _ & _ & Htable).
  destruct (Htable Hne' eq_refl Hnd) as (Hres & _ & _ & _ & _ & _ & _ & Hrow & Hmissing).
  split; [exact (proj1 (Hraise Hne eq_refl Hdup))|].
  split; [exact (proj1 (Hplain Hne eq_refl))|].
  split; [exact Hres|].
  split; [apply (Hrow {| Año := 2023; Valor := 3; País := "México" |}); by left|].
  split; [apply Hmissing; cbn; intuition discriminate|].
  vm_compute. reflexivity.
Defined.

(** ** When a panel raises *)

Lemma nombre_inj (p p' : pais) : nombre p = nombre p' -> p = p'.
Proof. destruct p, p'; intros Hn; try reflexivity; discriminate Hn. Qed.

Lemma iso2_inj (p p' : pais) : iso2 p = iso2 p' -> p = p'.
Proof. destruct p, p'; intros Hn; try reflexivity; discriminate Hn. Qed.

Lemma crear_grafico_with_table (df : list fila) (titulo tipo unidad : string) (s : state) :
  empty df = false ->
  (res (crear_grafico_comparativo df titulo tipo unidad true s) = Ok tt
   /\ NoDup (map cell_of df))
  \/ (res (crear_grafico_comparativo df titulo tipo unidad true s) = Raise ValueError
      /\ ~ NoDup (map cell_of df)).
Proof.
  intros Hne. unfold crear_grafico_comparativo. rewrite Hne.
  unfold bind, emit, lift. cbn -[pivot].
  destruct (pivot_cases df) as [[-> Hnd] | [-> Hnd]]; cbn; auto.
Qed.

(** The cells that the rows of the aggregated panel fill. *)
Lemma aggregated_panel_cells (dfs : list (pais * DataFrame)) :
  map cell_of (aggregated_panel dfs)
  = flat_map (fun x => map (fun año => (año, nombre (fst x))) (map fst (snd x))) dfs.
Proof.
  unfold aggregated_panel, tagged. induction dfs as [|[p df] dfs IH]; [done|].
  cbn. destruct df as [|r df]; cbn; [exact IH|].
  rewrite map_app, IH. f_equal. unfold set_País. rewrite !map_map. done.
Qed.

Lemma cells_unique_iff (dfs : list (pais * DataFrame)) :
  NoDup (map fst dfs) ->
  NoDup (flat_map (fun x => map (fun año => (año, nombre (fst x))) (map fst (snd x))) dfs)
  <-> forall p df, In (p, df) dfs -> NoDup (map fst df).
Proof.
  induction dfs as [|[p df] dfs IH]; intros Hsel.
  { split; [intros _ ? ? []|intros _; constructor]. }
  cbn in Hsel. apply NoDup_cons in Hsel as [Hp Hsel]. cbn [flat_map fst snd].
  rewrite NoDup_app, (IH Hsel).
  assert (NoDup (map (fun año : Z => (año, nombre p)) (map fst df)) <-> NoDup (map fst df))
    as Hinj.
  { apply (NoDup_fmap (fun año : Z => (año, nombre p))); by intros ? ? [= ->]. }
  rewrite Hinj. split.
  - intros (Hdf & _ & Hrest) p' df' [[= <- <-] | Hin]; eauto.
  - intros Hall. split; [apply (Hall p df); by left|].
    split; [|intros p' df' Hin; apply (Hall p' df'); by right].
    intros x Hx Hx'. apply list_elem_of_In, in_map_iff in Hx as (año & <- & _).
    apply list_elem_of_In, in_flat_map in Hx' as ([p' df'] & Hin & Hx').
    apply in_map_iff in Hx' as (año' & [= _ Hn] & _). cbn in Hn.
    apply nombre_inj in Hn as ->. apply Hp, list_elem_of_In, in_map_iff.
    by exists (p, df').
Qed.

Section Panel_raises.
Context `{Upstream} `{Pandas}.

Lemma panel_outcome_cases header codigo titulo tipo unidad paises a z s dfs :
  res (fetch_per_country codigo a z paises s) = Ok dfs ->
  (res (panel header codigo titulo tipo unidad paises a z s) = Ok tt
   /\ NoDup (map cell_of (aggregated_panel dfs)))
  \/ (res (panel header codigo titulo tipo unidad paises a z s) = Raise ValueError
      /\ ~ NoDup (map cell_of (aggregated_panel dfs))).
Proof.
  intros Hf.
  destruct (panel_spec header codigo titulo tipo unidad paises a z s) as (dfs' & Hf' & _ & ->).
  assert (dfs' = dfs) as -> by congruence. cbn.
  destruct (empty (tagged dfs)) eqn:He.
  - left. split; [done|]. unfold aggregated_panel.
    destruct (tagged dfs); [constructor|discriminate He].
  - rewrite <- aggregated_panel_empty in He. cbn.
    destruct (crear_grafico_with_table (aggregated_panel dfs) titulo tipo unidad
                (fin (fetch_per_country codigo a z paises s)) He) as [[-> ?] | [-> ?]]; auto.
Qed.

(** X2: for a selection that names no country twice, a panel ends normally
    exactly when no fetched series has a year twice; otherwise it raises
    [ValueError] (from the table, after the chart). Failed fetches and
    countries without data never make it raise. *)
Theorem X2_panel_raises_iff_repeated_year (header codigo titulo tipo unidad : string)
    (paises : list pais) (a z : Z) (s : state) :
  NoDup paises ->
  exists dfs,
    res (fetch_per_country codigo a z paises s) = Ok dfs
    /\ (res (panel header codigo titulo tipo unidad paises a z s) = Ok tt
        <-> forall p df, In (p, df) dfs -> NoDup (map fst df))
    /\ (res (panel header codigo titulo tipo unidad paises a z s) = Ok tt
        \/ res (panel header codigo titulo tipo unidad paises a z s) = Raise ValueError).
Proof.
  intros Hsel.
  destruct (panel_spec header codigo titulo tipo unidad paises a z s) as (dfs & Hf & Hmap & _).
  exists dfs. split; [done|].
  rewrite <- Hmap in Hsel. pose proof (cells_unique_iff dfs Hsel) as Hiff.
  rewrite <- aggregated_panel_cells in Hiff.
  destruct (panel_outcome_cases header codigo titulo tipo unidad paises a z s dfs Hf)
    as [[Hr Hnd] | [Hr Hnd]]; rewrite Hr.
  - split; [|by left]. split; [intros _; by apply Hiff | done].
  - split; [|by right]. split; [discriminate | intros Hall; by apply Hiff in Hall].
Qed.

End Panel_raises.

(** ** What the cache holds *)

Lemma notices_of_st (l : list st_call) : notices_of (map st l) = l.
Proof. induction l as [|c l IH]; [done|]. cbn. unfold notices_of in IH. by rewrite IH. Qed.

Lemma dropna_notna (df : DataFrame) :
  Forall (fun r => PrimFloat.is_nan (snd r) = false) (dropna df).
Proof.
  apply Forall_forall. intros r Hr. apply list_elem_of_In, dropna_In in Hr. tauto.
Qed.

Section Cache_facts.
Context `{Upstream} `{Pandas}.

(** The entry a call leaves under its arguments: the one it found live, or
    the one it stored, which holds either the empty frame with the error
    notice or the frame of the reply with no notice. Every other entry is as
    before. *)
Lemma call_result_entry p i a b s :
  let o := obtener_datos_fmi p i a b s in
  exists e,
    cache (fin o) !! (p, i, a, b) = Some e
    /\ res o = Ok (value e)
    /\ notices_of (evs o) = messages e
    /\ (cache s !! (p, i, a, b) = Some e
        \/ (exists x, value e = [] /\ messages e = [st_error x])
        \/ (exists df, attempt p i (upstream (nreq s) (url_fmi p i a b)) = Ok df
                       /\ value e = dropna df /\ messages e = []))
    /\ forall k, k <> (p, i, a, b) -> cache (fin o) !! k = cache s !! k.
Proof.
  intros o. subst o. destruct (live s (p, i, a, b)) eqn:Hl.
  - apply live_spec in Hl as (e & Hk & Ht). rewrite (call_hit _ _ _ _ _ _ Hk Ht). cbn.
    exists e. rewrite notices_of_st. repeat split; auto.
  - rewrite (call_miss _ _ _ _ _ Hl). cbn.
    destruct (attempt p i _) as [df|x] eqn:Ha; cbn.
    all: eexists; rewrite lookup_insert_eq; split; [reflexivity|]; cbn.
    all: split; [reflexivity|]; split; [reflexivity|]; split;
      [|intros k Hk; by rewrite lookup_insert_ne].
    + right. right. by exists df.
    + right. left. by exists x.
Qed.

Lemma call_keeps_tidy p i a b s :
  tidy s -> tidy (fin (obtener_datos_fmi p i a b s)).
Proof.
  intros Ht k e Hk.
  destruct (call_result_entry p i a b s) as (e' & He' & _ & _ & Hshape & Hother).
  destruct (decide (k = (p, i, a, b))) as [->|Hne].
  - pose proof (eq_trans (eq_sym He') Hk) as Heq. injection Heq as ->.
    destruct Hshape as [Hold | [(x & Hv & Hm) | (df & _ & Hv & Hm)]].
    + by eapply Ht.
    + split; [rewrite Hv; constructor|]. right. by exists x.
    + split; [rewrite Hv; apply dropna_notna|]. by left.
  - rewrite Hother in Hk by done. by eapply Ht.
Qed.

Lemma other_calls_keep_tidy l s : tidy s -> tidy (fin (other_calls l s)).
Proof.
  revert s. induction l as [|[d [[[p i] a] b]] l IH]; intros s Ht; [done|].
  cbn [other_calls]. rewrite (bind_ok _ _ _ tt) by done. cbn.
  destruct (obtener_datos_fmi_total p i a b (tick d s)) as [df Hdf].
  rewrite (bind_ok _ _ _ df) by done. cbn.
  apply IH, call_keeps_tidy. exact Ht.
Qed.

(** X3: a response that is in order but whose series is the empty mapping
    (or the empty list) is no failure: the call returns the empty frame
    with no notice, sleeps as after any successful fetch, and the empty
    frame is cached without a notice. *)
Theorem X3_empty_series_is_silent (p i : string) (a b : Z) (s : state)
    (response : Response) (data series : json) :
  live s (p, i, a, b) = false ->
  got (upstream (nreq s) (url_fmi p i a b)) = Some response ->
  ~ 400 <= status_code response < 600 ->
  body response = Some data ->
  series_at data i p = Ok series ->
  series = JObj [] \/ series = JArr [] ->
  let o := obtener_datos_fmi p i a b s in
  res o = Ok []
  /\ evs o = [requests_get (url_fmi p i a b); time_sleep 500]
  /\ cache (fin o) !! (p, i, a, b)
     = Some {| value := []; stored := clock (fin o); messages := [] |}.
Proof.
  intros Hl Hg Hs Hb Hp Hser o. subst o.
  assert (attempt p i (upstream (nreq s) (url_fmi p i a b)) = Ok []) as Ha.
  { unfold attempt, normalizar, raise_for_status, response_json. rewrite Hg, Hb.
    destruct (Z.leb_spec 400 (status_code response)),
      (Z.ltb_spec (status_code response) 600); try lia; cbn; rewrite Hp; cbn.
    all: by destruct Hser as [-> | ->]. }
  rewrite (call_miss _ _ _ _ _ Hl). cbn. rewrite Ha. cbn.
  split; [done|]. split; [done|]. by rewrite lookup_insert_eq.
Qed.

(** X4: an invariant of the cache. When every entry holds a frame without
    NaN and either no notice or one error notice beside the empty frame, any
    further calls leave the cache so; and a call then returns a frame
    without NaN, showing at most one notice, an error notice, and only with
    the empty frame. *)
Theorem X4_cache_stays_tidy (l : list (Z * key)) (p i : string) (a b : Z) (s : state) :
  tidy s ->
  let o := obtener_datos_fmi p i a b (fin (other_calls l s)) in
  tidy (fin o)
  /\ exists df,
       res o = Ok df
       /\ Forall (fun r => PrimFloat.is_nan (snd r) = false) df
       /\ (notices_of (evs o) = []
           \/ exists x, notices_of (evs o) = [st_error x] /\ df = []).
Proof.
  intros Ht o. subst o. apply (other_calls_keep_tidy l) in Ht.
  split; [by apply call_keeps_tidy|].
  pose proof (call_keeps_tidy p i a b _ Ht) as Ht'.
  destruct (call_result_entry p i a b (fin (other_calls l s)))
    as (e & He & Hres & Hnot & _ & _).
  destruct (Ht' _ _ He) as [Hnan Hmsg].
  exists (value e). rewrite Hnot. split; [done|]. split; [done|].
  destruct Hmsg as [-> | (x & -> & Hv)]; [by left|right; by exists x].
Qed.

End Cache_facts.

Lemma tidy_start : tidy start.
Proof. intros k e Hk. cbn in Hk. by rewrite lookup_empty in Hk. Qed.

(** ** How much a run asks of the upstream *)

Lemma requests_of_app (l1 l2 : list event) :
  requests_of (l1 ++ l2) = requests_of l1 ++ requests_of l2.
Proof. apply omap_app. Qed.

Lemma sleeps_of_app (l1 l2 : list event) :
  sleeps_of (l1 ++ l2) = sleeps_of l1 ++ sleeps_of l2.
Proof. apply omap_app. Qed.

Lemma sends_at_most_bind {A B} (m : M A) (k : A -> M B) (n n' : nat) :
  sends_at_most n m -> (forall a, sends_at_most n' (k a)) ->
  sends_at_most (n + n') (bind m k).
Proof.
  intros Hm Hk s. unfold bind. destruct (Hm s) as [Hs Hr].
  destruct (res (m s)) as [a|e]; cbn [res evs fin].
  - destruct (Hk a (fin (m s))) as [Hs' Hr'].
    rewrite requests_of_app, sleeps_of_app, !length_app. lia.
  - lia.
Qed.

Lemma sends_at_most_weaken {A} (m : M A) (n n' : nat) :
  sends_at_most n m -> (n <= n')%nat -> sends_at_most n' m.
Proof. intros Hm Hn s. destruct (Hm s). lia. Qed.

Lemma sends_at_most_ret {A} (a : A) : sends_at_most 0 (ret a).
Proof. intros s. cbn. lia. Qed.

Lemma sends_at_most_emit (c : st_call) : sends_at_most 0 (emit c).
Proof. intros s. cbn. lia. Qed.

Lemma sends_at_most_lift {A} (r : result A) : sends_at_most 0 (lift r).
Proof. intros s. cbn. lia. Qed.

Lemma sends_at_most_crear_grafico df titulo tipo unidad show_table :
  sends_at_most 0 (crear_grafico_comparativo df titulo tipo unidad show_table).
Proof.
  unfold crear_grafico_comparativo. destruct (empty df); [apply sends_at_most_emit|].
  apply (sends_at_most_weaken _ (0 + (0 + 0))); [|lia].
  apply sends_at_most_bind; [apply sends_at_most_emit|]. intros _.
  destruct show_table; [|apply (sends_at_most_weaken _ 0); [apply sends_at_most_ret|lia]].
  apply sends_at_most_bind; [apply sends_at_most_lift|].
  intros tabla. apply sends_at_most_emit.
Qed.

Section Requests.
Context `{Upstream} `{Pandas}.

(** A call sends one request or none, and sleeps only after sending. *)
Lemma sends_at_most_call p i a b : sends_at_most 1 (obtener_datos_fmi p i a b).
Proof.
  intros s. destruct (live s (p, i, a, b)) eqn:Hl.
  - apply live_spec in Hl as (e & Hk & Ht). rewrite (call_hit _ _ _ _ _ _ Hk Ht). cbn.
    rewrite requests_of_st, sleeps_of_st. cbn. lia.
  - rewrite (call_miss _ _ _ _ _ Hl). cbn. destruct (attempt p i _); cbn; lia.
Qed.

Lemma sends_at_most_recolectar codigo a z paises :
  forall datos, sends_at_most (length paises) (recolectar codigo a z paises datos).
Proof.
  induction paises as [|p resto IH]; intros datos; [apply sends_at_most_ret|].
  cbn [recolectar]. apply (sends_at_most_weaken _ (1 + length resto)); [|cbn; lia].
  apply sends_at_most_bind; [apply sends_at_most_call|].
  intros df. destruct (negb (empty df)); apply IH.
Qed.

Lemma sends_at_most_panel header codigo titulo tipo unidad paises a z :
  sends_at_most (length paises) (panel header codigo titulo tipo unidad paises a z).
Proof.
  unfold panel. apply (sends_at_most_weaken _ (0 + (length paises + 0))); [|lia].
  apply sends_at_most_bind; [apply sends_at_most_emit|]. intros _.
  apply sends_at_most_bind; [apply sends_at_most_recolectar|]. intros datos.
  destruct (negb (empty datos)); [|apply sends_at_most_ret].
  apply (sends_at_most_weaken _ (0 + 0)); [|lia].
  apply sends_at_most_bind; [apply sends_at_most_lift|].
  intros df. apply sends_at_most_crear_grafico.
Qed.

Lemma sends_at_most_recolectar_balanza año paises :
  forall datos, sends_at_most (2 * length paises) (recolectar_balanza año paises datos).
Proof.
  induction paises as [|p resto IH]; intros datos; [apply sends_at_most_ret|].
  cbn [recolectar_balanza].
  apply (sends_at_most_weaken _ (1 + (1 + 2 * length resto))); [|cbn [length]; lia].
  apply sends_at_most_bind; [apply sends_at_most_call|]. intros df_export.
  apply sends_at_most_bind; [apply sends_at_most_call|]. intros df_import.
  destruct (negb (empty df_export) && negb (empty df_import)); [|apply IH].
  apply (sends_at_most_weaken _ (0 + (0 + 2 * length resto))); [|lia].
  apply sends_at_most_bind; [apply sends_at_most_lift|]. intros e.
  apply sends_at_most_bind; [apply sends_at_most_lift|]. intros i. apply IH.
Qed.

Lemma sends_at_most_balanza paises año_fin :
  sends_at_most (2 * length paises) (balanza_comercial paises año_fin).
Proof.
  unfold balanza_comercial.
  apply (sends_at_most_weaken _ (0 + (2 * length paises + 0))); [|lia].
  apply sends_at_most_bind; [apply sends_at_most_emit|].
  intros _. destruct (negb (empty paises)).
  - apply sends_at_most_bind; [apply sends_at_most_recolectar_balanza|]. intros datos.
    destruct (negb (empty datos)); [apply sends_at_most_emit|apply sends_at_most_ret].
  - apply (sends_at_most_weaken _ 0); [apply sends_at_most_ret|lia].
Qed.

(** X5: a run of the page sends at most thirteen requests for each selected
    country (one for each of the eleven common panels, two for the trade
    balance), and makes no more half-second sleeps than it sends requests. *)
Theorem X5_page_sends_at_most_13_per_country (paises : list pais) (a z : Z) (s : state) :
  let o := visualizacion paises a z s in
  (length (sleeps_of (evs o)) <= length (requests_of (evs o)))%nat
  /\ (length (requests_of (evs o)) <= 13 * length paises)%nat.
Proof.
  intros o. subst o.
  assert (sends_at_most
            (length paises + (length paises + (length paises + (2 * length paises
             + (length paises + (length paises + (length paises + (length paises
             + (length paises + (length paises + (length paises + length paises)))))))))))
            (visualizacion paises a z)) as Hbound.
  { unfold visualizacion.
    repeat (apply sends_at_most_bind;
            [first [apply sends_at_most_panel | apply sends_at_most_balanza] | intros _]).
    apply sends_at_most_panel. }
  destruct (Hbound s) as [Hsleeps Hrequests]. split; [exact Hsleeps | lia].
Qed.

End Requests.

(** ** Running the page again *)

Lemma notices_of_app (l1 l2 : list event) :
  notices_of (l1 ++ l2) = notices_of l1 ++ notices_of l2.
Proof. apply omap_app. Qed.

Lemma steady_ret {A} (a : A) : steady (ret a).
Proof.
  split; [intros s; cbn; lia|]. intros T s Hf _. cbn. split; [done|]. split; [done|].
  intros s' _ _. reflexivity.
Qed.

Lemma steady_lift {A} (r : result A) : steady (lift r).
Proof.
  split; [intros s; cbn; lia|]. intros T s Hf _. cbn. split; [done|]. split; [done|].
  intros s' _ _. reflexivity.
Qed.

Lemma steady_emit (c : st_call) : steady (emit c).
Proof.
  split; [intros s; cbn; lia|]. intros T s Hf _. cbn. split; [done|]. split; [done|].
  intros s' _ _. reflexivity.
Qed.

Lemma steady_bind {A B} (m : M A) (k : A -> M B) :
  steady m -> (forall a, steady (k a)) -> steady (bind m k).
Proof.
  intros [Hm_clock Hm] Hk. split.
  - intros s. unfold bind. destruct (res (m s)) as [a|e]; cbn [fin].
    + destruct (Hk a) as [Hk_clock _]. specialize (Hm_clock s).
      specialize (Hk_clock (fin (m s))). lia.
    + apply Hm_clock.
  - intros T s Hf HT. unfold replays, bind in *.
    destruct (res (m s)) as [a|e] eqn:Hres; cbn [res evs fin] in *.
    + destruct (Hk a) as [Hk_clock Hka].
      assert (clock (fin (m s)) <= T) as HT1.
      { specialize (Hk_clock (fin (m s))). lia. }
      destruct (Hm T s Hf HT1) as (Hf1 & Hsub1 & Hre1).
      destruct (Hka T (fin (m s)) Hf1 HT) as (Hf2 & Hsub2 & Hre2).
      split; [done|]. split; [by etrans|].
      intros s' Hs' Hsub. unfold replays in *.
      rewrite (Hre1 s' Hs') by (by etrans). rewrite Hres. cbn [res evs fin].
      rewrite (Hre2 s' Hs' Hsub). cbn [res evs fin].
      by rewrite notices_of_app, map_app.
    + destruct (Hm T s Hf HT) as (Hf1 & Hsub1 & Hre1).
      split; [done|]. split; [done|].
      intros s' Hs' Hsub. unfold replays in *.
      rewrite (Hre1 s' Hs' Hsub), Hres. reflexivity.
Qed.

Lemma steady_crear_grafico df titulo tipo unidad show_table :
  steady (crear_grafico_comparativo df titulo tipo unidad show_table).
Proof.
  unfold crear_grafico_comparativo. destruct (empty df); [apply steady_emit|].
  apply steady_bind; [apply steady_emit|]. intros _.
  destruct show_table; [|apply steady_ret].
  apply steady_bind; [apply steady_lift|]. intros tabla. apply steady_emit.
Qed.

Section Rerun.
Context `{Upstream} `{Pandas}.
Hypothesis Htime : replies_take_time.

Lemma call_clock p i a b s : clock s <= clock (fin (obtener_datos_fmi p i a b s)).
Proof.
  destruct (live s (p, i, a, b)) eqn:Hl.
  - apply live_spec in Hl as (e & Hk & Ht). rewrite (call_hit _ _ _ _ _ _ Hk Ht). cbn. lia.
  - rewrite (call_miss _ _ _ _ _ Hl). cbn.
    pose proof (Htime (nreq s) (url_fmi p i a b)).
    destruct (attempt p i _); cbn; lia.
Qed.

Lemma steady_call p i a b : steady (obtener_datos_fmi p i a b).
Proof.
  split; [apply call_clock|].
  intros T s [Hclock Hentries] HT. unfold replays.
  destruct (cache s !! (p, i, a, b)) as [e|] eqn:Hk.
  - assert (clock s < stored e + ttl) as Hlive.
    { pose proof (Hentries _ _ Hk). pose proof (call_clock p i a b s). lia. }
    rewrite (call_hit _ _ _ _ _ _ Hk Hlive). cbn.
    split; [done|]. split; [done|]. intros s' Hs' Hsub.
    rewrite notices_of_st. apply call_hit.
    + by eapply lookup_weaken.
    + rewrite Hs'. by eapply Hentries.
  - assert (live s (p, i, a, b) = false) as Hl.
    { destruct (live s (p, i, a, b)) eqn:Hl; [|done].
      apply live_spec in Hl as (e & Hk' & _).
      pose proof (eq_trans (eq_sym Hk) Hk') as Habs. discriminate Habs. }
    revert HT. rewrite (call_miss _ _ _ _ _ Hl). cbn.
    pose proof (Htime (nreq s) (url_fmi p i a b)) as Htook.
    destruct (attempt p i _) as [df|x]; cbn; intros HT.
    all: split; [split; [cbn; lia|]|split; [by apply insert_subseteq|]].
    1,3: intros k e Hke; cbn in Hke;
      destruct (decide (k = (p, i, a, b))) as [->|Hne];
      [rewrite lookup_insert_eq in Hke; injection Hke as <-; cbn; lia
      |rewrite lookup_insert_ne in Hke by done; by eapply Hentries].
    all: intros s' Hs' Hsub; eapply eq_trans;
      [eapply call_hit;
         [eapply lookup_weaken; [apply lookup_insert_eq|exact Hsub]|cbn; lia]
      |reflexivity].
Qed.

Lemma steady_recolectar codigo a z paises :
  forall datos, steady (recolectar codigo a z paises datos).
Proof.
  induction paises as [|p resto IH]; intros datos; [apply steady_ret|].
  cbn [recolectar]. apply steady_bind; [apply steady_call|].
  intros df. destruct (negb (empty df)); apply IH.
Qed.

Lemma steady_panel header codigo titulo tipo unidad paises a z :
  steady (panel header codigo titulo tipo unidad paises a z).
Proof.
  unfold panel. apply steady_bind; [apply steady_emit|]. intros _.
  apply steady_bind; [apply steady_recolectar|]. intros datos.
  destruct (negb (empty datos)); [|apply steady_ret].
  apply steady_bind; [apply steady_lift|]. intros df. apply steady_crear_grafico.
Qed.

Lemma steady_recolectar_balanza año paises :
  forall datos, steady (recolectar_balanza año paises datos).
Proof.
  induction paises as [|p resto IH]; intros datos; [apply steady_ret|].
  cbn [recolectar_balanza].
  apply steady_bind; [apply steady_call|]. intros df_export.
  apply steady_bind; [apply steady_call|]. intros df_import.
  destruct (negb (empty df_export) && negb (empty df_import)); [|apply IH].
  apply steady_bind; [apply steady_lift|]. intros e.
  apply steady_bind; [apply steady_lift|]. intros i. apply IH.
Qed.

Lemma steady_balanza paises año_fin : steady (balanza_comercial paises año_fin).
Proof.
  unfold balanza_comercial. apply steady_bind; [apply steady_emit|]. intros _.
  destruct (negb (empty paises)); [|apply steady_ret].
  apply steady_bind; [apply steady_recolectar_balanza|]. intros datos.
  destruct (negb (empty datos)); [apply steady_emit|apply steady_ret].
Qed.

Lemma steady_visualizacion paises a z : steady (visualizacion paises a z).
Proof.
  unfold visualizacion.
  repeat (apply steady_bind;
          [first [apply steady_panel | apply steady_balanza] | intros _]).
  apply steady_panel.
Qed.

End Rerun.

(** X6: running the page again. Suppose replies never take negative time,
    the second run starts after the first has ended and less than 3600
    seconds after the first began, the entries that were cached before the
    first run are still within their time to live, and the cache still holds
    what the first run left. Then the second run sends no request and never
    sleeps: it ends as the first did, shows the page elements of the first
    run again, error notices of failed fetches included, and leaves the
    state untouched. *)
Theorem X6_rerun_replays (U : Upstream) (P : Pandas) (paises : list pais) (a z : Z)
    (s s' : state) :
  replies_take_time ->
  let o := visualizacion paises a z s in
  let o' := visualizacion paises a z s' in
  (forall k e, cache s !! k = Some e -> clock s' < stored e + 3600 * 1000) ->
  clock s' < clock s + 3600 * 1000 ->
  clock (fin o) <= clock s' ->
  cache (fin o) ⊆ cache s' ->
  o' = Out (res o) (map st (notices_of (evs o))) s'
  /\ requests_of (evs o') = []
  /\ sleeps_of (evs o') = [].
Proof.
  intros Htime o o' Hold Hstart Hafter Hsub.
  destruct (steady_visualizacion Htime paises a z) as [_ Hsteady].
  destruct (Hsteady (clock s') s (conj Hstart Hold) Hafter) as (_ & _ & Hre).
  assert (o' = Out (res o) (map st (notices_of (evs o))) s') as Ho'.
  { apply Hre; done. }
  split; [exact Ho'|]. rewrite Ho'. cbn.
  by rewrite requests_of_st, sleeps_of_st.
Qed.


Lemma tick_clock d s : clock (tick d s) = clock s + d.
Proof. reflexivity. Qed.
Lemma tick_cache d s : cache (tick d s) = cache s.
Proof. reflexivity. Qed.

Lemma X6_rerun_replays_witness :
  let U := always (ok_json mocked_NGDP_R_US) in
  let o := @visualizacion U Plain.pandas [USA; MEX] 2020 2022 start in
  let s' := tick 60000 (fin o) in
  let o' := @visualizacion U Plain.pandas [USA; MEX] 2020 2022 s' in
  @replies_take_time U
  /\ clock s' < clock start + 3600 * 1000
  /\ clock (fin o) <= clock s'
  /\ length (requests_of (evs o)) = 26%nat
  /\ requests_of (evs o') = []
  /\ sleeps_of (evs o') = []
  /\ res o' = res o.
Proof.
  intros U.
  assert (@replies_take_time U) as Htime by (intros n url; apply Z.le_refl).
  assert (clock (fin (@visualizacion U Plain.pandas [USA; MEX] 2020 2022 start)) + 60000
          < clock start + 3600 * 1000) as Hstart by (vm_compute; reflexivity).
  assert (length (requests_of (evs (@visualizacion U Plain.pandas [USA; MEX] 2020 2022 start)))
          = 26%nat) as Hcount by (vm_compute; reflexivity).
  assert (forall (k : key) (e : entry),
             cache start !! k = Some e ->
             clock (tick 60000 (fin (@visualizacion U Plain.pandas [USA; MEX] 2020 2022 start)))
             < stored e + 3600 * 1000) as Hold.
  { intros k e Hk. exfalso. revert Hk. unfold start. cbn [cache]. by rewrite lookup_empty. }
  pose proof (X6_rerun_replays U Plain.pandas [USA; MEX] 2020 2022 start) as Hx.
  revert Hstart Hcount Hold Hx.
  generalize (@visualizacion U Plain.pandas [USA; MEX] 2020 2022 start).
  intros o Hstart Hcount Hold Hx. cbv zeta.
  specialize (Hx (tick 60000 (fin o)) Htime). cbv zeta in Hx.
  rewrite tick_clock, tick_cache in Hx. rewrite tick_clock.
  assert (clock (fin o) <= clock (fin o) + 60000) as Hafter by lia.
  split; [exact Htime|]. split; [exact Hstart|]. split; [exact Hafter|].
  split; [exact Hcount|].
  destruct (Hx (fun k e Hk => eq_rect _ (fun t => t < _) (Hold k e Hk) _ (tick_clock _ _))
              Hstart Hafter (reflexivity _)) as (Ho' & Hreq & Hsl).
  split; [exact Hreq|]. split; [exact Hsl|]. rewrite Ho'. reflexivity.
Defined.

(** ** Failures of the upstream do not stop the page *)

Lemma crear_grafico_fin df titulo tipo unidad show_table s :
  fin (crear_grafico_comparativo df titulo tipo unidad show_table s) = s.
Proof.
  unfold crear_grafico_comparativo. destruct (empty df); [done|].
  unfold bind, emit, lift, ret. cbn -[pivot].
  destruct show_table; cbn -[pivot]; [|done]. by destruct (pivot df).
Qed.

Lemma seq_ends_normally (Inv : state -> Prop) (m k : M unit) :
  (forall s, Inv s -> res (m s) = Ok tt /\ Inv (fin (m s))) ->
  (forall s, Inv s -> res (k s) = Ok tt /\ Inv (fin (k s))) ->
  forall s, Inv s -> res ((m;;; k) s) = Ok tt /\ Inv (fin ((m;;; k) s)).
Proof.
  intros Hm Hk s Hs. destruct (Hm s Hs) as [Hr Hs1].
  rewrite (bind_ok _ _ _ tt Hr). cbn [res evs fin]. by apply Hk.
Qed.

Section Page_ends.
Context `{Upstream} `{Pandas}.
Variable Q : DataFrame -> Prop.
Hypothesis Q_empty : Q [].
Hypothesis Q_reply :
  forall n url p i df, attempt p i (upstream n url) = Ok df -> Q (dropna df).

Lemma call_keeps_cached p i a b s :
  cached_all Q s ->
  cached_all Q (fin (obtener_datos_fmi p i a b s))
  /\ exists df, res (obtener_datos_fmi p i a b s) = Ok df /\ Q df.
Proof.
  intros Hc.
  destruct (call_result_entry p i a b s) as (e & He & Hres & _ & Hshape & Hother).
  assert (Q (value e)) as HQ.
  { destruct Hshape as [Hold | [(x & -> & _) | (df & Ha & -> & _)]].
    - by eapply Hc.
    - exact Q_empty.
    - by eapply Q_reply. }
  split; [|by exists (value e)].
  intros k e' Hk. destruct (decide (k = (p, i, a, b))) as [->|Hne].
  - pose proof (eq_trans (eq_sym He) Hk) as Heq. by injection Heq as <-.
  - rewrite Hother in Hk by done. by eapply Hc.
Qed.

Lemma fetch_per_country_keeps_cached codigo a z paises :
  forall s,
    cached_all Q s ->
    cached_all Q (fin (fetch_per_country codigo a z paises s))
    /\ exists dfs, res (fetch_per_country codigo a z paises s) = Ok dfs
                   /\ forall p df, In (p, df) dfs -> Q df.
Proof.
  induction paises as [|p resto IH]; intros s Hc.
  { split; [done|]. exists []. split; [done|]. intros ? ? []. }
  destruct (call_keeps_cached (iso2 p) codigo a z s Hc) as (Hc1 & df & Hdf & HQ).
  destruct (IH _ Hc1) as (Hc2 & dfs & Hdfs & HQs).
  cbn [fetch_per_country]. rewrite (bind_ok _ _ _ df Hdf). cbn [res evs fin].
  rewrite (bind_ok _ _ _ dfs Hdfs). cbn.
  split; [done|]. exists ((p, df) :: dfs). split; [done|].
  intros p' df' [[= <- <-] | Hin]; eauto.
Qed.

Lemma fetch_trade_keeps_cached año paises :
  forall s,
    cached_all Q s -> cached_all Q (fin (fetch_trade_per_country año paises s)).
Proof.
  induction paises as [|p resto IH]; intros s Hc; [done|].
  destruct (call_keeps_cached (iso2 p) "TXG_FOB_USD" año año s Hc) as (Hc1 & dfe & Hdfe & _).
  destruct (call_keeps_cached (iso2 p) "TMG_CIF_USD" año año _ Hc1) as (Hc2 & dfi & Hdfi & _).
  cbn [fetch_trade_per_country]. rewrite (bind_ok _ _ _ dfe Hdfe). cbn [res evs fin].
  rewrite (bind_ok _ _ _ dfi Hdfi). cbn [res evs fin].
  specialize (IH _ Hc2).
  unfold bind at 1. destruct (res (fetch_trade_per_country año resto _)); cbn; exact IH.
Qed.

Lemma balanza_keeps_cached paises año_fin s :
  cached_all Q s ->
  res (balanza_comercial paises año_fin s) = Ok tt
  /\ cached_all Q (fin (balanza_comercial paises año_fin s)).
Proof.
  intros Hc. destruct (balanza_comercial_spec paises año_fin s) as (dfs & _ & _ & ->).
  cbn. split; [done|]. by apply fetch_trade_keeps_cached.
Qed.

End Page_ends.

Section Page_ends_normally.
Context `{Upstream} `{Pandas}.
Hypothesis Hunique : unique_years.

Lemma dropna_unique_years (df : DataFrame) :
  NoDup (map fst df) -> NoDup (map fst (dropna df)).
Proof.
  intros Hnd. eapply sublist_NoDup; [exact Hnd | apply (fmap_sublist fst), dropna_sublist].
Qed.

Lemma panel_ends_normally header codigo titulo tipo unidad paises a z s :
  NoDup paises ->
  cached_all (fun df => NoDup (map fst df)) s ->
  res (panel header codigo titulo tipo unidad paises a z s) = Ok tt
  /\ cached_all (fun df => NoDup (map fst df))
       (fin (panel header codigo titulo tipo unidad paises a z s)).
Proof.
  intros Hsel Hc.
  destruct (fetch_per_country_keeps_cached (fun df => NoDup (map fst df))
              (NoDup_nil_2 : NoDup (map fst ([] : DataFrame)))
              (fun n url p i df Ha => dropna_unique_years df (Hunique n url p i df Ha))
              codigo a z paises s Hc) as (Hc' & dfs & Hf & HQ).
  destruct (panel_spec header codigo titulo tipo unidad paises a z s)
    as (dfs' & Hf' & Hmap & Hp).
  assert (dfs' = dfs) as -> by congruence.
  split.
  - destruct (panel_outcome_cases header codigo titulo tipo unidad paises a z s dfs Hf)
      as [[Hr _] | [_ Hnd]]; [done|].
    exfalso. apply Hnd. rewrite aggregated_panel_cells.
    apply cells_unique_iff; [by rewrite Hmap|exact HQ].
  - rewrite Hp. cbn. destruct (empty (tagged dfs)); cbn; [done|].
    by rewrite crear_grafico_fin.
Qed.

Lemma visualizacion_ends_normally paises a z :
  NoDup paises ->
  forall s,
    cached_all (fun df => NoDup (map fst df)) s ->
    res (visualizacion paises a z s) = Ok tt
    /\ cached_all (fun df => NoDup (map fst df)) (fin (visualizacion paises a z s)).
Proof.
  intros Hsel. unfold visualizacion.
  repeat
    (apply (seq_ends_normally (cached_all (fun df => NoDup (map fst df))));
     [ intros s Hc;
       first
         [ by apply panel_ends_normally
         | apply (balanza_keeps_cached (fun df => NoDup (map fst df)));
           [ constructor
           | intros n url p i df Ha; by eapply dropna_unique_years, Hunique
           | exact Hc ] ]
     | ]).
  intros s Hc. by apply panel_ends_normally.
Qed.

End Page_ends_normally.

(** X7: failures of the upstream do not stop the page. If no reply repeats
    a year within a series, the selection names no country twice and no
    cached frame repeats a year, then the run ends normally, all twelve
    blocks done, whatever else the upstream does (no reply, error statuses,
    bodies that are not JSON or lack the series); and no cached frame repeats
    a year afterwards, so the same holds for the next run. *)
Theorem X7_upstream_failures_do_not_stop_the_page (U : Upstream) (P : Pandas)
    (paises : list pais) (a z : Z) (s : state) :
  unique_years ->
  NoDup paises ->
  cached_all (fun df => NoDup (map fst df)) s ->
  res (visualizacion paises a z s) = Ok tt
  /\ cached_all (fun df => NoDup (map fst df)) (fin (visualizacion paises a z s)).
Proof.
  intros Hunique Hsel Hc. by apply visualizacion_ends_normally.
Qed.

Lemma X7_upstream_failures_do_not_stop_the_page_witness :
  @unique_years mex_fails_usa_succeeds Plain.pandas
  /\ NoDup [MEX; USA]
  /\ cached_all (fun df => NoDup (map fst df)) start
  /\ res (@visualizacion mex_fails_usa_succeeds Plain.pandas [MEX; USA] 2020 2022 start) = Ok tt.
Proof.
  assert (@unique_years mex_fails_usa_succeeds Plain.pandas) as Hunique.
  { intros n url p i df. unfold attempt, upstream, mex_fails_usa_succeeds, by_url.
    generalize (url_fmi "MX" "NGDP_R" 2020 2022) (url_fmi "US" "NGDP_R" 2020 2022).
    intros u1 u2. cbn -[String.eqb normalizar].
    destruct (String.eqb u1 url).
    { unfold normalizar; cbn. intros Habs. discriminate Habs. }
    destruct (String.eqb u2 url).
    2: { cbn. intros Habs. discriminate Habs. }
    unfold normalizar. cbn -[String.eqb].
    unfold series_at, mocked_NGDP_R_US, getitem at 1. cbn -[String.eqb].
    change (String.eqb "values" "values") with true. cbn -[String.eqb].
    destruct (String.eqb i "NGDP_R").
    2: { cbn. intros Habs. discriminate Habs. }
    cbn -[String.eqb].
    destruct (String.eqb p "US").
    2: { cbn. intros Habs. discriminate Habs. }
    cbn. intros [= <-]. cbn. rewrite !NoDup_cons, !list_elem_of_In. cbn.
    repeat split; try constructor; intuition discriminate. }
  assert (NoDup [MEX; USA]) as Hsel.
  { rewrite !NoDup_cons, !list_elem_of_In. cbn.
    repeat split; try constructor; intuition discriminate. }
  assert (cached_all (fun df => NoDup (map fst df)) start) as Hc.
  { intros k e Hk. exfalso. revert Hk. unfold start. cbn [cache]. by rewrite lookup_empty. }
  split; [exact Hunique|]. split; [exact Hsel|]. split; [exact Hc|].
  exact (proj1 (X7_upstream_failures_do_not_stop_the_page mex_fails_usa_succeeds Plain.pandas
                  [MEX; USA] 2020 2022 start Hunique Hsel Hc)).
Defined.

(** ** A failure, and the upstream back *)

Section Recovery.
Context `{Upstream} `{Pandas}.

(** X8: a failed fetch sticks for its time to live and is then retried.
    After a call that ended in the handler, a call with the same arguments
    less than 3600 seconds later returns the empty frame without asking the
    upstream, even if the upstream would answer by now; from 3600 seconds on
    it asks again, and when the reply is in order it returns the frame of
    that reply, with no notice, and the frame replaces the cached
    failure. *)
Theorem X8_failure_sticks_then_recovers (p i : string) (a b : Z) (s : state)
    (x : exn) (df : DataFrame) (d : Z) :
  live s (p, i, a, b) = false ->
  attempt p i (upstream (nreq s) (url_fmi p i a b)) = Raise x ->
  attempt p i (upstream (S (nreq s)) (url_fmi p i a b)) = Ok df ->
  let o1 := obtener_datos_fmi p i a b s in
  let o2 := obtener_datos_fmi p i a b (tick d (fin o1)) in
  res o1 = Ok []
  /\ (d < 3600 * 1000 -> res o2 = Ok [] /\ requests_of (evs o2) = [])
  /\ (3600 * 1000 <= d ->
      res o2 = Ok (dropna df)
      /\ evs o2 = [requests_get (url_fmi p i a b); time_sleep 500]
      /\ cache (fin o2) !! (p, i, a, b)
         = Some {| value := dropna df; stored := clock (fin o2); messages := [] |}).
Proof.
  intros Hl Hx Hdf o1 o2.
  assert (o1 = Out (Ok []) [requests_get (url_fmi p i a b); st (st_error x)]
                 (stored_in (p, i, a, b)
                    {| value := [];
                       stored := clock s + took (upstream (nreq s) (url_fmi p i a b));
                       messages := [st_error x] |}
                    (arrived (upstream (nreq s) (url_fmi p i a b)) s))) as Ho1.
  { subst o1. rewrite (call_miss _ _ _ _ _ Hl). cbn. by rewrite Hx. }
  assert (cache (tick d (fin o1)) !! (p, i, a, b)
          = Some {| value := [];
                    stored := clock s + took (upstream (nreq s) (url_fmi p i a b));
                    messages := [st_error x] |}) as He.
  { rewrite Ho1. cbn. by rewrite lookup_insert_eq. }
  assert (clock (tick d (fin o1))
          = clock s + took (upstream (nreq s) (url_fmi p i a b)) + d) as Hclock.
  { rewrite Ho1. reflexivity. }
  assert (nreq (tick d (fin o1)) = S (nreq s)) as Hn by (by rewrite Ho1).
  split; [by rewrite Ho1|]. split.
  - intros Hd. subst o2.
    erewrite call_hit; [|exact He|rewrite Hclock; cbn; unfold ttl; lia].
    cbn. split; [done|]. apply (requests_of_st [st_error x]).
  - intros Hd. subst o2.
    assert (live (tick d (fin o1)) (p, i, a, b) = false) as Hl2.
    { eapply not_live_spec; [exact He|]. rewrite Hclock. cbn. unfold ttl. lia. }
    rewrite (call_miss _ _ _ _ _ Hl2). cbv zeta.
    rewrite Hn, Hdf. cbn [res evs fin]. split; [done|]. split; [done|].
    unfold stored_in. cbn [cache clock]. by rewrite lookup_insert_eq.
Qed.

End Recovery.

Lemma X8_failure_sticks_then_recovers_witness :
  let U := down_then_up (ok_json mocked_NGDP_R_US) in
  let o1 := @obtener_datos_fmi U Plain.pandas "US" "NGDP_R" 2020 2022 start in
  live start ("US", "NGDP_R", 2020, 2022) = false
  /\ res o1 = Ok []
  /\ res (@obtener_datos_fmi U Plain.pandas "US" "NGDP_R" 2020 2022 (tick 3599999 (fin o1)))
     = Ok []
  /\ res (@obtener_datos_fmi U Plain.pandas "US" "NGDP_R" 2020 2022 (tick 3600000 (fin o1)))
     = Ok [(2020, 100%float); (2021, 105.5%float)].
Proof.
  intros U.
  assert (live start ("US", "NGDP_R", 2020, 2022) = false) as Hl by reflexivity.
  assert (@attempt Plain.pandas "US" "NGDP_R" (U 0%nat (url_fmi "US" "NGDP_R" 2020 2022))
          = Raise ConnectionError) as Hx by reflexivity.
  assert (@attempt Plain.pandas "US" "NGDP_R" (U 1%nat (url_fmi "US" "NGDP_R" 2020 2022))
          = Ok [(2020, 100%float); (2021, 105.5%float); (2022, nan)]) as Hdf
    by (vm_compute; reflexivity).
  pose proof (fun d => @X8_failure_sticks_then_recovers U Plain.pandas "US" "NGDP_R" 2020 2022
                         start ConnectionError _ d Hl Hx Hdf) as Hx8.
  cbv zeta in Hx8. cbv zeta.
  destruct (Hx8 3599999) as (H1 & Hstick & _).
  destruct (Hx8 3600000) as (_ & _ & Hrecover).
  split; [exact Hl|]. split; [exact H1|].
  split; [apply Hstick; lia|]. apply Hrecover. lia.
Defined.

Lemma X2_panel_raises_iff_repeated_year_witness :
  let U := always (ok_json mocked_NGDP_R_US) in
  NoDup [USA]
  /\ res (@panel U Plain.pandas "1. Producto Interno Bruto (PIB)" "NGDP_R" "Evolución del PIB"
            "bar" "USD" [USA] 2020 2022 start) = Ok tt.
Proof.
  intros U.
  assert (NoDup [USA]) as Hsel.
  { apply NoDup_cons. split; [|constructor]. intros Hin. inversion Hin. }
  split; [exact Hsel|].
  destruct (@X2_panel_raises_iff_repeated_year U Plain.pandas "1. Producto Interno Bruto (PIB)"
              "NGDP_R" "Evolución del PIB" "bar" "USD" [USA] 2020 2022 start Hsel)
    as (dfs & Hf & Hiff & _).
  apply Hiff. vm_compute in Hf. injection Hf as <-.
  intros p df [[= <- <-] | []]. cbn.
  rewrite !NoDup_cons, !list_elem_of_In. cbn.
  repeat split; try constructor; intuition discriminate.
Defined.

Lemma X3_empty_series_is_silent_witness :
  let U := always (ok_json empty_series_MX) in
  let o := @obtener_datos_fmi U Plain.pandas "MX" "NGDP_R" 2010 2023 start in
  live start ("MX", "NGDP_R", 2010, 2023) = false
  /\ series_at empty_series_MX "NGDP_R" "MX" = Ok (JObj [])
  /\ res o = Ok []
  /\ evs o = [requests_get (url_fmi "MX" "NGDP_R" 2010 2023); time_sleep 500].
Proof.
  intros U.
  assert (live start ("MX", "NGDP_R", 2010, 2023) = false) as Hl by reflexivity.
  assert (series_at empty_series_MX "NGDP_R" "MX" = Ok (JObj [])) as Hs by reflexivity.
  split; [exact Hl|]. split; [exact Hs|].
  destruct (@X3_empty_series_is_silent U Plain.pandas "MX" "NGDP_R" 2010 2023 start
              (ok_json empty_series_MX) empty_series_MX (JObj []) Hl eq_refl
              ltac:(cbn; lia) eq_refl Hs (or_introl eq_refl)) as (Hr & He & _).
  split; [exact Hr | exact He].
Defined.

Lemma X4_cache_stays_tidy_witness :
  let U := always {| status_code := 502; body := None |} in
  let l := [(1000, ("US", "NGDP_R", 2020, 2021)); (5, ("MX", "NGDP_R", 2020, 2022))] in
  let o := @obtener_datos_fmi U Plain.pandas "MX" "NGDP_R" 2020 2022
             (fin (@other_calls U Plain.pandas l start)) in
  tidy start
  /\ exists df,
       res o = Ok df
       /\ (notices_of (evs o) = [] \/ exists x, notices_of (evs o) = [st_error x] /\ df = []).
Proof.
  intros U l. split; [exact tidy_start|].
  destruct (@X4_cache_stays_tidy U Plain.pandas l "MX" "NGDP_R" 2020 2022 start tidy_start)
    as (_ & df & Hr & _ & Hn).
  exists df. split; [exact Hr | exact Hn].
Defined.
